(** * VxWorks UVC camera driver: a shallow embedding of USB_Header.c

    The development follows the layout of the C file: machine integers
    and the macros of USB_Header.h, the global variables, the image
    pipeline (YUV2RGB, processImage, dump_ppm), the isochronous
    completion callback that reassembles frames, and the probe/commit
    negotiation of Add_Device_Callback.  Calls into the host USB stack
    and into the operating system are recorded as events; their results
    are inputs of the model. *)

From Stdlib Require Import ZArith List Bool Lia.
Import ListNotations.
Local Open Scope Z_scope.

(** ** Machine integers

    Values of the C integer types are integers of [Z]; every assignment
    to a fixed-width variable writes its wrap-around out. *)

Definition uint8 (x : Z) : Z := x mod 256.
Definition uint16 (x : Z) : Z := x mod 65536.
Definition uint32 (x : Z) : Z := x mod 4294967296.
Definition int16 (x : Z) : Z := (x + 32768) mod 65536 - 32768.
Definition int32 (x : Z) : Z := (x + 2147483648) mod 4294967296 - 2147483648.

(** ** Macros of USB_Header.h *)

Definition USB_DIRECTION_OUT : Z := 0x21.
Definition USB_DIRECTION_IN : Z := 0xA1.
Definition USB_SET_CURRENT : Z := 0x01.
Definition USB_GET_CURRENT : Z := 0x81.
Definition USB_SETUP_PACKET_INDEX : Z := 0x01.
Definition CONTROL_TRANSFER_ENDPOINT : Z := 0x00.
Definition UVC_VS_PROBE_CONTROL : Z := 0x100.
Definition UVC_VS_COMMIT_CONTROL : Z := 0x200.
Definition dwFrameInterval : Z := 0x01.
Definition UNCOMPRESSED_FRAMES : Z := 0x00.
Definition RESOLUTION : Z := 0x02.

Definition ISOCHRONOUS_TRANSFER_ENDPOINT_INTERFACE_1 : Z := 0x81.
Definition NUMBER_OF_ISOCHRONOUS_PACKETS : Z := 12.
Definition HEADER_LENGTH : Z := 12.
Definition ISOCHRONOUS_BUFFER_SIZE : Z := 944.
Definition ISOCHRONOUS_TRANSFER_LENGTH : Z := 11328.
Definition NO_OF_TRANSFERS : Z := 5.
Definition HRES : Z := 160.
Definition VRES : Z := 120.

Definition INTERFACE : Z := 1.
Definition ALTERNATE_INTERFACE : Z := 6.
Definition FRAME_COUNT : Z := 500.
Definition FPS_15_DATA_4 : Z := 0x2A.      (* 0b00101010 *)
Definition FPS_15_DATA_5 : Z := 0x2C.      (* 0b00101100 *)
Definition FPS_15_DATA_6 : Z := 0x0A.      (* 0b00001010 *)

(** Status codes of the host stack and of VxWorks.  Their headers are
    not part of the repository; the driver only ever compares a status
    with the success code, so the values below (those of usbHst.h and
    vxWorks.h) matter only through that comparison. *)

Definition USBHST_SUCCESS : Z := 0.
Definition USBHST_FAILURE : Z := -1.
Definition OK : Z := 0.
Definition ERROR : Z := -1.

(** sizeof(image_buffer) and sizeof(data). *)

Definition sizeof_image_buffer : Z := HRES * VRES * 2.
Definition sizeof_data : Z := 26.

(** ** Buffers

    A C array is a map from index to byte.  An access outside the
    declared bounds is undefined in C; the model keeps the index as it
    is, so that a write past the end stays visible as a write at an index
    beyond the size of the array. *)

Definition buffer := Z -> Z.

Definition memset (dst : buffer) (c n : Z) : buffer :=
  fun k => if (0 <=? k) && (k <? n) then c else dst k.

Definition memcpy (dst : buffer) (doff : Z) (src : buffer) (soff n : Z) : buffer :=
  fun k => if (doff <=? k) && (k <? doff + n) then src (soff + (k - doff)) else dst k.

(** ** Events

    Every call that leaves the driver is logged in program order. *)

Inductive event : Type :=
| EvDriverDeregister                       (* usbHstDriverDeregister, in shutDown *)
| EvTaskSpawn (ok : bool)                  (* taskSpawn of processImage *)
| EvLogMsg
| EvMemset (n : Z)                         (* memset of image_buffer *)
| EvMemcpy (dst_off src_off n : Z)         (* memcpy into image_buffer *)
| EvSemTake                                (* semTake(synch_sem, WAIT_FOREVER) *)
| EvSemGive                                (* semGive(synch_sem) *)
| EvIsoResubmit                            (* usbHstURBSubmit in the completion callback *)
| EvOpen (tag : Z)
| EvWrite (requested returned : Z)
| EvClose
| EvGetConfiguration
| EvSetConfiguration
| EvControlSubmit (bmRequestType bRequest wValue wIndex wLength : Z) (payload : list Z)
| EvReleaseEvent                           (* OS_RELEASE_EVENT in the control callback *)
| EvFreeDriverData                         (* OSS_FREE(pDriverData) *)
| EvSetInterface (interface alternate : Z)
| EvPipePrepare (endpoint : Z)
| EvIsoSubmit (endpoint : Z).              (* usbHstURBSubmit in Isochronous_Transfer *)

Definition trace := list event.

(** A call either returns a value or stays blocked in an infinite wait. *)

Inductive outcome (A : Type) : Type :=
| Returns (a : A)
| Blocked.
Arguments Returns {A} a.
Arguments Blocked {A}.

(** shutDown: deregisters the driver. *)

Definition shutDown : trace := [EvDriverDeregister].

(** ** Format conversion *)

(** The byte left in memory by an assignment through a char pointer. *)
Definition store_char (x : Z) : Z := x mod 256.

(** YUV2RGB.  The arithmetic is that of int, with its wrap-around; >> on
    a negative int is the arithmetic shift of the compilers the driver is
    built with, which is [Z.shiftr]. *)

Definition YUV2RGB (y u v : Z) : Z * Z * Z :=
  let c := int32 (y - 16) in
  let d := int32 (u - 128) in
  let e := int32 (v - 128) in
  let f := int32 (298 * c) in
  let r1 := Z.shiftr (int32 (int32 (f + int32 (409 * e)) + 128)) 8 in
  let g1 := Z.shiftr (int32 (int32 (int32 (f - int32 (100 * d)) - int32 (208 * e)) + 128)) 8 in
  let b1 := Z.shiftr (int32 (int32 (f + int32 (516 * d)) + 128)) 8 in
  let r1 := if r1 >? 255 then 255 else r1 in
  let g1 := if g1 >? 255 then 255 else g1 in
  let b1 := if b1 >? 255 then 255 else b1 in
  let r1 := if r1 <? 0 then 0 else r1 in
  let g1 := if g1 <? 0 then 0 else g1 in
  let b1 := if b1 <? 0 then 0 else b1 in
  (store_char r1, store_char g1, store_char b1).

(** The conversion as the specification words it. *)

Definition clamp (x lo hi : Z) : Z := Z.max lo (Z.min x hi).

Definition spec_convert (y u v : Z) : Z * Z * Z :=
  let c := y - 16 in
  let d := u - 128 in
  let e := v - 128 in
  (clamp (Z.shiftr (298 * c + 409 * e + 128) 8) 0 255,
   clamp (Z.shiftr (298 * c - 100 * d - 208 * e + 128) 8) 0 255,
   clamp (Z.shiftr (298 * c + 516 * d + 128) 8) 0 255).

(** The loop of processImage: one pass per four input bytes, six output
    bytes appended to bigBuffer per pass.  [n] is the number of passes
    left, [i] the loop index. *)

Fixpoint processImage_loop (n : nat) (pptr : buffer) (i : Z) : list Z :=
  match n with
  | O => []
  | S n' =>
      let y_temp := int16 (pptr i) in
      let u_temp := int16 (pptr (i + 1)) in
      let y2_temp := int16 (pptr (i + 2)) in
      let v_temp := int16 (pptr (i + 3)) in
      let '(r, g, b) := YUV2RGB y_temp u_temp v_temp in
      let '(r2, g2, b2) := YUV2RGB y2_temp u_temp v_temp in
      r :: g :: b :: r2 :: g2 :: b2 :: processImage_loop n' pptr (i + 4)
  end.

(** for(i = 0; i < size; i += 4) runs (size + 3) / 4 times. *)
Definition processImage_passes (size : Z) : nat := Z.to_nat ((size + 3) / 4).

(** ** Frame sink *)

(** The header, 21 bytes of which are written: P6, a comment, 160 120, 255. *)
Definition new_header : list Z :=
  [80; 54; 10; 35; 116; 101; 115; 116; 10; 49; 54; 48; 32; 49; 50; 48; 10; 50; 53; 53; 10; 0].

(** The bytes one call write(fd, p, n) leaves in the file when it
    returns [r]: the first [r] bytes of [p]; nothing when [r] is the
    error return -1 (or any value write cannot return for [n]). *)
Definition written_bytes (p : list Z) (n r : Z) : list Z :=
  if (0 <=? r) && (r <=? n) then firstn (Z.to_nat r) p else [].

(** The do-while of dump_ppm.  [rets] holds the values returned by the
    successive calls of write; the result is [None] when the loop is
    still running after the last of them. *)
Fixpoint dump_ppm_loop (rets : list Z) (p : list Z) (size total : Z)
    (file : list Z) (tr : trace) : option (list Z * Z * trace) :=
  match rets with
  | [] => None
  | r :: rets' =>
      let written := uint32 r in
      let file' := file ++ written_bytes p size r in
      let total' := uint32 (total + written) in
      let tr' := tr ++ [EvWrite size r] in
      if total' <? size then dump_ppm_loop rets' p size total' file' tr'
      else Some (file', total', tr')
  end.

(** dump_ppm: returns the contents of the file and the events.  The
    first element of [rets] answers the write of the header. *)
Definition dump_ppm (rets : list Z) (p : list Z) (size tag : Z)
    : option (list Z * trace) :=
  match rets with
  | [] => None
  | r0 :: rets' =>
      let file0 := written_bytes new_header 21 r0 in
      match dump_ppm_loop rets' p size 0 file0 [EvOpen tag; EvWrite 21 r0] with
      | None => None
      | Some (file, _, tr) => Some (file, tr ++ [EvSemGive; EvClose])
      end
  end.

(** processImage: conversion, then dump_ppm with the value frameCount
    has when the task runs. *)
Definition processImage (rets : list Z) (p : buffer) (size frameCount : Z)
    : option (list Z * trace) :=
  let bigBuffer := processImage_loop (processImage_passes size) p 0 in
  dump_ppm rets bigBuffer (uint32 (uint32 (size * 6) / 4)) frameCount.

(** ** Global variables *)

Record globals : Type := mkGlobals {
  data : list Z;              (* UCHAR data[26] *)
  image_buffer : buffer;      (* UCHAR image_buffer[HRES*VRES*2] *)
  offset : Z;                 (* UINT32 *)
  frameCount : Z;             (* UINT16 *)
  mem_h : Z;                  (* UINT8 *)
  end_of_image : Z;           (* UINT8 *)
  aborted : Z;                (* UINT8 *)
  first : Z                   (* UINT8 *)
}.

Definition set_data (g : globals) (v : list Z) : globals :=
  mkGlobals v (image_buffer g) (offset g) (frameCount g) (mem_h g) (end_of_image g) (aborted g) (first g).
Definition set_image_buffer (g : globals) (v : buffer) : globals :=
  mkGlobals (data g) v (offset g) (frameCount g) (mem_h g) (end_of_image g) (aborted g) (first g).
Definition set_offset (g : globals) (v : Z) : globals :=
  mkGlobals (data g) (image_buffer g) v (frameCount g) (mem_h g) (end_of_image g) (aborted g) (first g).
Definition set_frameCount (g : globals) (v : Z) : globals :=
  mkGlobals (data g) (image_buffer g) (offset g) v (mem_h g) (end_of_image g) (aborted g) (first g).
Definition set_mem_h (g : globals) (v : Z) : globals :=
  mkGlobals (data g) (image_buffer g) (offset g) (frameCount g) v (end_of_image g) (aborted g) (first g).
Definition set_end_of_image (g : globals) (v : Z) : globals :=
  mkGlobals (data g) (image_buffer g) (offset g) (frameCount g) (mem_h g) v (aborted g) (first g).
Definition set_aborted (g : globals) (v : Z) : globals :=
  mkGlobals (data g) (image_buffer g) (offset g) (frameCount g) (mem_h g) (end_of_image g) v (first g).
Definition set_first (g : globals) (v : Z) : globals :=
  mkGlobals (data g) (image_buffer g) (offset g) (frameCount g) (mem_h g) (end_of_image g) (aborted g) v.

(** data[i] = v, for an index inside the array. *)
Fixpoint store_at (l : list Z) (i : nat) (v : Z) : list Z :=
  match l, i with
  | [], _ => []
  | _ :: l', O => v :: l'
  | x :: l', S i' => x :: store_at l' i' v
  end.

(** The globals as the C start-up code leaves them: all zero. *)
Definition zeroed_globals : globals :=
  mkGlobals (repeat 0 26) (fun _ => 0) 0 0 0 0 0 0.

Definition fill_global (g : globals) : globals :=
  let g := set_data g (store_at (data g) 0 dwFrameInterval) in
  let g := set_data g (store_at (data g) 1 0x00) in
  let g := set_data g (store_at (data g) 2 UNCOMPRESSED_FRAMES) in
  let g := set_data g (store_at (data g) 3 RESOLUTION) in
  let g := set_data g (store_at (data g) 4 FPS_15_DATA_4) in
  let g := set_data g (store_at (data g) 5 FPS_15_DATA_5) in
  let g := set_data g (store_at (data g) 6 FPS_15_DATA_6) in
  let g := set_first g 1 in
  let g := set_frameCount g (uint16 FRAME_COUNT) in
  set_aborted g 0.

(** The globals when the first transfer completes. *)
Definition initial_globals : globals := fill_global zeroed_globals.

(** ** Frame reassembly: Isochronous_Completion_Callback *)

Record USBHST_ISO_PACKET_DESC : Type := mkDesc {
  uLength : Z;                (* UINT32, written by the host stack *)
  uOffset : Z;
  nStatus : Z
}.

(** The parts of the URB the callback reads: the transfer buffer and the
    array of packet descriptors, both indexed from 0. *)
Record USBHST_URB : Type := mkUrb {
  pTransferBuffer : buffer;
  pTransferSpecificData : Z -> USBHST_ISO_PACKET_DESC
}.

(** The FID bit of packet [i]: pTransferBuffer[(i*ISOCHRONOUS_BUFFER_SIZE) + 1] & 0x01. *)
Definition packet_fid (pUrb : USBHST_URB) (i : Z) : Z :=
  Z.land (pTransferBuffer pUrb (i * ISOCHRONOUS_BUFFER_SIZE + 1)) 0x01.

(** The third argument of both memcpy calls: uLength - HEADER_LENGTH,
    computed in UINT32. *)
Definition copy_length (d : USBHST_ISO_PACKET_DESC) : Z :=
  uint32 (uLength d - HEADER_LENGTH).

(** What one pass of the packet loop leaves: the loop goes on, or the
    callback has returned ERROR. *)
Inductive flow : Type :=
| Next (g : globals)
| ReturnError (g : globals).

Definition flow_globals (f : flow) : globals :=
  match f with Next g => g | ReturnError g => g end.

(** The memcpy and the offset update shared by both branches. *)
Definition copy_payload (pUrb : USBHST_URB) (i : Z) (g : globals) : globals * trace :=
  let d := pTransferSpecificData pUrb i in
  let src_off := i * ISOCHRONOUS_BUFFER_SIZE + HEADER_LENGTH in
  let ev := EvMemcpy (offset g) src_off (copy_length d) in
  let g := set_image_buffer g
             (memcpy (image_buffer g) (offset g) (pTransferBuffer pUrb) src_off (copy_length d)) in
  let g := set_offset g (uint32 (offset g + copy_length d)) in
  (g, [ev]).

(** One pass of the first for loop.  [spawn_ok] tells whether a call of
    taskSpawn made in this pass succeeds. *)
Definition iso_packet (spawn_ok : bool) (pUrb : USBHST_URB) (i : Z) (g : globals)
    : flow * trace :=
  let d := pTransferSpecificData pUrb i in
  let '(r, tr) :=
    if negb (uLength d =? HEADER_LENGTH) then
      if negb (mem_h g =? packet_fid pUrb i) then
        let g := set_mem_h g (uint8 (packet_fid pUrb i)) in
        let g := set_end_of_image g 1 in
        let g := set_offset g 0 in
        let g := set_frameCount g (uint16 (frameCount g - 1)) in
        let g := if frameCount g =? 0 then set_aborted g 1 else g in
        if spawn_ok then
          let g := set_first g 1 in
          let g := set_image_buffer g (memset (image_buffer g) 0 sizeof_image_buffer) in
          let '(g, tr) := copy_payload pUrb i g in
          (Next g, [EvTaskSpawn true; EvMemset sizeof_image_buffer] ++ tr)
        else
          (ReturnError g, [EvTaskSpawn false; EvLogMsg] ++ shutDown)
      else
        let '(g, tr0) :=
          if first g =? 1 then (set_first g 0, [EvSemTake]) else (g, []) in
        let '(g, tr) := copy_payload pUrb i g in
        (Next g, tr0 ++ tr)
    else (Next g, [])
  in
  match r with
  | ReturnError _ => (r, tr)
  | Next _ =>
      (* if(nStatus != USBHST_SUCCESS) { continue; }: the last statement
         of the loop body, the log in it is compiled out *)
      if negb (nStatus d =? USBHST_SUCCESS) then (r, tr) else (r, tr)
  end.

(** The first for loop: [n] passes from index [i]. *)
Fixpoint iso_packet_loop (n : nat) (spawn : Z -> bool) (pUrb : USBHST_URB) (i : Z)
    (g : globals) : flow * trace :=
  match n with
  | O => (Next g, [])
  | S n' =>
      match iso_packet (spawn i) pUrb i g with
      | (Next g', tr) =>
          let '(r, tr') := iso_packet_loop n' spawn pUrb (i + 1) g' in
          (r, tr ++ tr')
      | (ReturnError g', tr) => (ReturnError g', tr)
      end
  end.

(** The second for loop: every descriptor gets its slot size and offset back. *)
Definition refill_descriptors (pUrb : USBHST_URB) : USBHST_URB :=
  mkUrb (pTransferBuffer pUrb)
        (fun i =>
           if (0 <=? i) && (i <? NUMBER_OF_ISOCHRONOUS_PACKETS)
           then mkDesc ISOCHRONOUS_BUFFER_SIZE (i * ISOCHRONOUS_BUFFER_SIZE)
                       (nStatus (pTransferSpecificData pUrb i))
           else pTransferSpecificData pUrb i).

Record completion_result : Type := mkResult {
  res_globals : globals;
  res_urb : USBHST_URB;
  res_trace : trace;
  res_status : Z
}.

Definition Isochronous_Completion_Callback (spawn : Z -> bool) (pUrb : USBHST_URB)
    (g : globals) : completion_result :=
  match iso_packet_loop (Z.to_nat NUMBER_OF_ISOCHRONOUS_PACKETS) spawn pUrb 0 g with
  | (ReturnError g', tr) => mkResult g' pUrb tr ERROR
  | (Next g', tr) =>
      let pUrb' := refill_descriptors pUrb in
      if aborted g' =? 0
      then mkResult g' pUrb' (tr ++ [EvIsoResubmit]) USBHST_SUCCESS
      else mkResult g' pUrb' tr USBHST_SUCCESS
  end.

(** A run of completions, each with its own answers of taskSpawn; the
    run stops at a callback that returned ERROR. *)
Fixpoint completions (cs : list ((Z -> bool) * USBHST_URB)) (g : globals)
    : globals * trace :=
  match cs with
  | [] => (g, [])
  | (spawn, pUrb) :: cs' =>
      let r := Isochronous_Completion_Callback spawn pUrb g in
      if res_status r =? USBHST_SUCCESS
      then let '(g', tr) := completions cs' (res_globals r) in (g', res_trace r ++ tr)
      else (res_globals r, res_trace r)
  end.

(** The states of the globals the callback can be entered or left in. *)
Inductive reachable : globals -> Prop :=
| reach_init : reachable initial_globals
| reach_completion : forall spawn pUrb g,
    reachable g ->
    reachable (res_globals (Isochronous_Completion_Callback spawn pUrb g)).

(** ** Negotiation: Control_Transfer and Add_Device_Callback *)

Definition int8 (x : Z) : Z := (x + 128) mod 256 - 128.

(** What the host stack does with a control URB it accepted: it hands
    the completion callback the URB, whose status field it has set and
    whose buffer holds the bytes the device sent when the transfer is
    device-to-host, or it hands the callback a null pointer. *)
Inductive completion : Type :=
| CompleteUrb (urb_status : Z) (device_bytes : list Z)
| CompleteNull.

(** The answers of the environment during one call of Control_Transfer. *)
Record control_env : Type := mkControlEnv {
  calloc_urb : bool;          (* OSS_CALLOC(sizeof(USBHST_URB)) succeeds *)
  calloc_setup : bool;        (* OSS_CALLOC(sizeof(USBHST_SETUP_PACKET)) succeeds *)
  submit_status : Z;          (* value of usbHstURBSubmit *)
  completes : completion
}.

(** Control_Completion_Callback: [None] stands for the null pointer.
    The event of the URB is released on the other path only. *)
Definition Control_Completion_Callback (pUrb : option Z) : trace * Z :=
  match pUrb with
  | None => (shutDown, USBHST_FAILURE)
  | Some _ => ([EvReleaseEvent], USBHST_SUCCESS)
  end.

(** OS_WAIT_FOR_EVENT(EventId, OS_WAIT_INFINITE) returns once the event
    has been released. *)
Definition event_released (tr : trace) : bool :=
  existsb (fun e => match e with EvReleaseEvent => true | _ => false end) tr.

(** Bit 7 of bmRequestType set: the data stage goes from device to host. *)
Definition device_to_host (uRequestType : Z) : bool := Z.testbit uRequestType 7.

(** The buffer after the stack stored the bytes of the device at its start. *)
Definition receive (buf : list Z) (device_bytes : list Z) : list Z :=
  firstn (length buf) (device_bytes ++ skipn (length device_bytes) buf).

Definition Control_Transfer (env : control_env) (uRequestType uRequest uValue uIndex : Z)
    (g : globals) : trace * globals * outcome Z :=
  if negb (calloc_urb env) then (shutDown, g, Returns ERROR)
  else if negb (calloc_setup env) then (shutDown, g, Returns ERROR)
  else
    let tr := [EvControlSubmit uRequestType uRequest uValue uIndex sizeof_data (data g)] in
    let nStatus := submit_status env in
    if nStatus =? USBHST_SUCCESS then
      match completes env with
      | CompleteUrb urb_status device_bytes =>
          let g' := if device_to_host uRequestType
                    then set_data g (receive (data g) device_bytes) else g in
          let '(trc, _) := Control_Completion_Callback (Some urb_status) in
          if event_released trc then (tr ++ trc, g', Returns urb_status)
          else (tr ++ trc, g', Blocked)
      | CompleteNull =>
          let '(trc, _) := Control_Completion_Callback None in
          if event_released trc then (tr ++ trc, g, Returns nStatus)
          else (tr ++ trc, g, Blocked)
      end
    else (tr, g, Returns nStatus).

(** The answers of the environment during one call of Isochronous_Transfer. *)
Record iso_env : Type := mkIsoEnv {
  iso_calloc_urb : bool;
  iso_calloc_desc : bool;
  iso_submit_status : Z
}.

(** Isochronous_Transfer.  After a successful submission it waits for
    the event of the URB, which Isochronous_Completion_Callback never
    releases. *)
Definition Isochronous_Transfer (env : iso_env) (uEndpointAddress : Z)
    : trace * outcome Z :=
  if negb (iso_calloc_urb env) then (shutDown, Returns ERROR)
  else if negb (iso_calloc_desc env) then (shutDown, Returns USBHST_FAILURE)
  else
    let tr := [EvIsoSubmit uEndpointAddress] in
    let nStatus := iso_submit_status env in
    if nStatus =? USBHST_SUCCESS then
      if event_released [] then (tr, Returns nStatus) else (tr, Blocked)
    else (tr, Returns nStatus).

(** The answers of the environment during one call of Add_Device_Callback. *)
Record attach_env : Type := mkAttachEnv {
  getConfiguration_status : Z;
  setConfiguration_status : Z;
  control1 : control_env;
  control2 : control_env;
  control3 : control_env;
  setInterface_status : Z;
  calloc_setupInfo : bool;
  pipePrepare_status : Z;
  iso_transfer : Z -> iso_env
}.

(** for(i = 0; i < NO_OF_TRANSFERS; i++): [n] passes from index [i]. *)
Fixpoint start_transfers (n : nat) (env : Z -> iso_env) (i : Z) : trace * outcome Z :=
  match n with
  | O => ([], Returns USBHST_SUCCESS)
  | S n' =>
      match Isochronous_Transfer (env i) ISOCHRONOUS_TRANSFER_ENDPOINT_INTERFACE_1 with
      | (tr, Blocked) => (tr, Blocked)
      | (tr, Returns s) =>
          if negb (USBHST_SUCCESS =? s)
          then (tr ++ shutDown ++ [EvFreeDriverData], Returns USBHST_FAILURE)
          else let '(tr', r) := start_transfers n' env (i + 1) in (tr ++ tr', r)
      end
  end.

(** The part of Add_Device_Callback after the third control transfer. *)
Definition start_streaming (env : attach_env) : trace * outcome Z :=
  let temp_status := int8 (setInterface_status env) in
  let tr := [EvSetInterface INTERFACE ALTERNATE_INTERFACE] in
  if negb (temp_status =? OK) then (tr ++ shutDown, Returns ERROR)
  else if negb (calloc_setupInfo env) then (tr ++ shutDown, Returns ERROR)
  else
    let temp_status := int8 (pipePrepare_status env) in
    let tr := tr ++ [EvPipePrepare ISOCHRONOUS_TRANSFER_ENDPOINT_INTERFACE_1] in
    if negb (temp_status =? USBHST_SUCCESS) then (tr ++ shutDown, Returns ERROR)
    else
      let '(tr', r) := start_transfers (Z.to_nat NO_OF_TRANSFERS) (iso_transfer env) 0 in
      (tr ++ tr', r).

(** One of the three negotiation steps of Add_Device_Callback: the
    control transfer, then either the failure exit or the rest [k]. *)
Definition negotiation_step (env : control_env) (uRequestType uRequest uValue : Z)
    (g : globals) (k : globals -> trace * globals * outcome Z)
    : trace * globals * outcome Z :=
  match Control_Transfer env uRequestType uRequest uValue USB_SETUP_PACKET_INDEX g with
  | (tr, g', Blocked) => (tr, g', Blocked)
  | (tr, g', Returns s) =>
      if negb (USBHST_SUCCESS =? s)
      then (tr ++ shutDown ++ [EvFreeDriverData], g', Returns USBHST_FAILURE)
      else let '(tr', g'', r) := k g' in (tr ++ tr', g'', r)
  end.

Definition Add_Device_Callback (env : attach_env) (g : globals)
    : trace * globals * outcome Z :=
  let temp_status := int8 (getConfiguration_status env) in
  if negb (temp_status =? OK) then ([EvGetConfiguration] ++ shutDown, g, Returns ERROR)
  else
    let temp_status := int8 (setConfiguration_status env) in
    if negb (temp_status =? OK)
    then ([EvGetConfiguration; EvSetConfiguration] ++ shutDown, g, Returns ERROR)
    else
      let '(tr, g', r) :=
        negotiation_step (control1 env) USB_DIRECTION_OUT USB_SET_CURRENT UVC_VS_PROBE_CONTROL g
          (fun g1 =>
        negotiation_step (control2 env) USB_DIRECTION_IN USB_GET_CURRENT UVC_VS_PROBE_CONTROL g1
          (fun g2 =>
        negotiation_step (control3 env) USB_DIRECTION_OUT USB_SET_CURRENT UVC_VS_COMMIT_CONTROL g2
          (fun g3 => let '(tr, r) := start_streaming env in (tr, g3, r)))) in
      ([EvGetConfiguration; EvSetConfiguration] ++ tr, g', r).

(** ** Frame boundaries as the specification words them

    A packet of header-only length is skipped; any other packet starts a
    new frame exactly when its FID bit differs from the current frame
    ID.  [fid_toggles n pUrb i fid] lists the indices, among the [n]
    packets from [i], of the packets that start a new frame when the
    current frame ID is [fid]. *)

Fixpoint fid_toggles (n : nat) (pUrb : USBHST_URB) (i : Z) (fid : Z) : list Z :=
  match n with
  | O => []
  | S n' =>
      if uLength (pTransferSpecificData pUrb i) =? HEADER_LENGTH
      then fid_toggles n' pUrb (i + 1) fid
      else if fid =? packet_fid pUrb i
           then fid_toggles n' pUrb (i + 1) fid
           else i :: fid_toggles n' pUrb (i + 1) (packet_fid pUrb i)
  end.

(** The frame boundaries in a trace: one taskSpawn per boundary. *)
Definition is_spawn (e : event) : bool :=
  match e with EvTaskSpawn _ => true | _ => false end.

Definition boundaries (tr : trace) : nat := length (filter is_spawn tr).

Definition is_semTake (e : event) : bool :=
  match e with EvSemTake => true | _ => false end.

Definition is_resubmit (e : event) : bool :=
  match e with EvIsoResubmit => true | _ => false end.

(** A memcpy that stays inside image_buffer. *)
Definition copy_in_bounds (e : event) : Prop :=
  match e with
  | EvMemcpy dst_off _ n => 0 <= dst_off /\ dst_off + n <= sizeof_image_buffer
  | _ => True
  end.

(** The device keeps every frame within the frame buffer: over the [n]
    packets from [i], every packet that is not header-only has a length
    between 13 and the slot size, and the payloads of one frame (the
    packets between two FID toggles) fit in [room] bytes for the current
    frame [fid] and in the whole buffer for each later frame. *)
Fixpoint frames_fit (n : nat) (pUrb : USBHST_URB) (i fid room : Z) : Prop :=
  match n with
  | O => True
  | S n' =>
      let len := uLength (pTransferSpecificData pUrb i) in
      if len =? HEADER_LENGTH then frames_fit n' pUrb (i + 1) fid room
      else HEADER_LENGTH < len <= ISOCHRONOUS_BUFFER_SIZE
           /\ if fid =? packet_fid pUrb i
              then len - HEADER_LENGTH <= room
                   /\ frames_fit n' pUrb (i + 1) fid (room - (len - HEADER_LENGTH))
              else frames_fit n' pUrb (i + 1) (packet_fid pUrb i)
                     (sizeof_image_buffer - (len - HEADER_LENGTH))
  end.

(** ** Outcomes of one negotiation transfer, read off the environment *)

(** The transfer returns USBHST_SUCCESS: both allocations succeed, the
    stack accepts the URB and completes it with the success status. *)
Definition control_succeeds (e : control_env) : bool :=
  calloc_urb e && calloc_setup e && (submit_status e =? USBHST_SUCCESS)
  && match completes e with
     | CompleteUrb urb_status _ => urb_status =? USBHST_SUCCESS
     | CompleteNull => false
     end.

(** The stack accepts the URB and hands the callback a null pointer. *)
Definition null_completion (e : control_env) : bool :=
  calloc_urb e && calloc_setup e && (submit_status e =? USBHST_SUCCESS)
  && match completes e with
     | CompleteUrb _ _ => false
     | CompleteNull => true
     end.

(** The bytes the device sent in the data stage. *)
Definition device_reply (e : control_env) : list Z :=
  match completes e with
  | CompleteUrb _ device_bytes => device_bytes
  | CompleteNull => []
  end.

(** The device is configured and the three transfers succeed. *)
Definition negotiation_succeeds (env : attach_env) : bool :=
  (int8 (getConfiguration_status env) =? OK)
  && (int8 (setConfiguration_status env) =? OK)
  && control_succeeds (control1 env)
  && control_succeeds (control2 env)
  && control_succeeds (control3 env).

(** The first of the three transfers that does not succeed, with its rank. *)
Definition first_failure (env : attach_env) : option (nat * control_env) :=
  if negb (control_succeeds (control1 env)) then Some (1%nat, control1 env)
  else if negb (control_succeeds (control2 env)) then Some (2%nat, control2 env)
  else if negb (control_succeeds (control3 env)) then Some (3%nat, control3 env)
  else None.

Definition is_control (e : event) : bool :=
  match e with EvControlSubmit _ _ _ _ _ _ => true | _ => false end.

(** The request of a control submission, without its payload. *)
Definition request_of (e : event) : Z * Z * Z * Z * Z :=
  match e with
  | EvControlSubmit t r v i l _ => (t, r, v, i, l)
  | _ => (0, 0, 0, 0, 0)
  end.

(** The requests of the control transfers submitted in a trace, in order. *)
Definition control_requests (tr : trace) : list (Z * Z * Z * Z * Z) :=
  map request_of (filter is_control tr).

(** The three requests of the negotiation, in order. *)
Definition negotiation_requests : list (Z * Z * Z * Z * Z) :=
  [(USB_DIRECTION_OUT, USB_SET_CURRENT, UVC_VS_PROBE_CONTROL, USB_SETUP_PACKET_INDEX, sizeof_data);
   (USB_DIRECTION_IN, USB_GET_CURRENT, UVC_VS_PROBE_CONTROL, USB_SETUP_PACKET_INDEX, sizeof_data);
   (USB_DIRECTION_OUT, USB_SET_CURRENT, UVC_VS_COMMIT_CONTROL, USB_SETUP_PACKET_INDEX, sizeof_data)].

(** The steps that follow the negotiation. *)
Definition is_streaming (e : event) : bool :=
  match e with
  | EvSetInterface _ _ | EvPipePrepare _ | EvIsoSubmit _ => true
  | _ => false
  end.

(** ** Inputs used in the examples *)

(** A completed transfer whose packet [i] has length [len i], FID bit
    [fid i] and status [status i]; every other byte of the transfer
    buffer is [fill]. *)
Definition make_urb (len fid status : Z -> Z) (fill : Z) : USBHST_URB :=
  mkUrb (fun k => if k mod ISOCHRONOUS_BUFFER_SIZE =? 1
                  then fid (k / ISOCHRONOUS_BUFFER_SIZE) else fill)
        (fun i => mkDesc (len i) (i * ISOCHRONOUS_BUFFER_SIZE) (status i)).

Definition spawn_always : Z -> bool := fun _ => true.

(** Twelve full packets of the frame with FID 0, payload bytes 0x55. *)
Definition urb_full_frame0 : USBHST_URB :=
  make_urb (fun _ => 944) (fun _ => 0) (fun _ => USBHST_SUCCESS) 0x55.

(** Two full packets of the frame with FID 1, payload bytes 0xAA, then
    ten header-only packets. *)
Definition urb_new_frame1 : USBHST_URB :=
  make_urb (fun i => if i <? 2 then 944 else 12) (fun _ => 1) (fun _ => USBHST_SUCCESS) 0xAA.

(** Twelve packets of one payload byte each, FID bits 1,0,1,0,... *)
Definition urb_toggling : USBHST_URB :=
  make_urb (fun _ => 13) (fun i => (i + 1) mod 2) (fun _ => USBHST_SUCCESS) 0x00.

(** A full packet of the current frame whose status is a failure, then
    eleven header-only packets. *)
Definition urb_failed_packet : USBHST_URB :=
  make_urb (fun i => if i =? 0 then 944 else 12) (fun _ => 0)
           (fun i => if i =? 0 then USBHST_FAILURE else USBHST_SUCCESS) 0x77.

(** A packet of length zero, then eleven header-only packets. *)
Definition urb_empty_packet : USBHST_URB :=
  make_urb (fun i => if i =? 0 then 0 else 12) (fun _ => 0) (fun _ => USBHST_SUCCESS) 0x00.

(** A control transfer that succeeds, the device sending [bytes]. *)
Definition control_ok (bytes : list Z) : control_env :=
  mkControlEnv true true USBHST_SUCCESS (CompleteUrb USBHST_SUCCESS bytes).

(** A control transfer completed with a failure status. *)
Definition control_stalled : control_env :=
  mkControlEnv true true USBHST_SUCCESS (CompleteUrb USBHST_FAILURE []).

(** A control transfer whose completion callback gets a null pointer. *)
Definition control_null : control_env :=
  mkControlEnv true true USBHST_SUCCESS CompleteNull.

(** The 26 bytes a device answers to GET_CUR/PROBE: the host's request
    with the payload size 944 (0x3B0) filled in at bytes 22 and 23. *)
Definition probe_response : list Z :=
  [1; 0; 0; 2; 0x2A; 0x2C; 0x0A; 0; 0; 0; 0; 0; 0; 0; 0; 0; 0; 0; 0; 0x96; 0; 0; 0xB0; 0x03; 0; 0].

(** An attach where everything outside the three transfers succeeds. *)
Definition attach_with (c1 c2 c3 : control_env) : attach_env :=
  mkAttachEnv OK OK c1 c2 c3 OK true USBHST_SUCCESS
              (fun _ => mkIsoEnv true true USBHST_SUCCESS).

(** The same transfer with other packet statuses. *)
Definition with_status (pUrb : USBHST_URB) (status : Z -> Z) : USBHST_URB :=
  mkUrb (pTransferBuffer pUrb)
        (fun j => mkDesc (uLength (pTransferSpecificData pUrb j))
                         (uOffset (pTransferSpecificData pUrb j)) (status j)).

(** The globals after the completion [urb_full_frame0]: image_buffer
    holds the first 11184 bytes of the frame with FID 0. *)
Definition globals_frame0 : globals :=
  res_globals (Isochronous_Completion_Callback spawn_always urb_full_frame0 initial_globals).

(** The state after 41 completions of [urb_toggling] and the first
    eight packets of the 42nd: 500 frame boundaries. *)
Definition globals_quota_spent : globals :=
  flow_globals (fst (iso_packet_loop 8 spawn_always urb_toggling 0
                       (fst (completions (repeat (spawn_always, urb_toggling) 41)
                                         initial_globals)))).


(** * Further parts of the driver *)

(** ** Pixels *)

(** The three bytes of one pixel, as the specification words the
    conversion. *)
Definition pixel (y u v : Z) : list Z :=
  let '(r, g, b) := spec_convert y u v in [r; g; b].

(** ** The name of the artifact

    dump_ppm builds the name in the global array ppm_dumpname with
    snprintf(&ppm_dumpname[12], 9, "%08d", tag) and
    strncat(&ppm_dumpname[20], ".ppm", 5). *)

(** char ppm_dumpname[] = "/tgtsvr/test00000000.ppm": 24 characters and
    the terminating zero. *)
Definition ppm_dumpname : list Z :=
  [47; 116; 103; 116; 115; 118; 114; 47; 116; 101; 115; 116;
   48; 48; 48; 48; 48; 48; 48; 48; 46; 112; 112; 109; 0].

(** The characters "%08d" prints for an int between 0 and 99999999:
    eight decimal digits, the most significant first. *)
Definition print_08d (v : Z) : list Z :=
  map (fun k => 48 + (v / 10 ^ k) mod 10) [7; 6; 5; 4; 3; 2; 1; 0].

(** Consecutive stores from index [off]. *)
Fixpoint store_list (buf : list Z) (off : nat) (l : list Z) : list Z :=
  match l with
  | [] => buf
  | x :: l' => store_list (store_at buf off x) (S off) l'
  end.

(** strlen: the number of characters before the first zero. *)
Fixpoint c_strlen (s : list Z) : nat :=
  match s with
  | [] => O
  | c :: s' => if c =? 0 then O else S (c_strlen s')
  end.

(** The string held by a character array. *)
Definition c_string (buf : list Z) : list Z := firstn (c_strlen buf) buf.

(** snprintf(&buf[off], size, ...) with the characters [chars] to print:
    at most size - 1 of them, then the terminating zero. *)
Definition snprintf (buf : list Z) (off size : nat) (chars : list Z) : list Z :=
  store_list buf off (firstn (size - 1) chars ++ [0]).

(** strncat(&buf[off], src, n): at most [n] characters of [src] and a
    terminating zero, stored at the end of the string that starts at
    index [off]. *)
Definition strncat (buf : list Z) (off : nat) (src : list Z) (n : nat) : list Z :=
  store_list buf (off + c_strlen (skipn off buf)) (firstn n src ++ [0]).

(** The two calls of dump_ppm; the UINT16 tag is printed as an int. *)
Definition set_dumpname (buf : list Z) (tag : Z) : list Z :=
  strncat (snprintf buf 12 9 (print_08d (uint16 tag))) 20 [46; 112; 112; 109] 5.

(** Reading eight decimal digits back. *)
Definition read_decimal (digits : list Z) : Z :=
  fold_left (fun acc d => 10 * acc + (d - 48)) digits 0.

(** ** Frames as lists of bytes *)

(** The payload of packet [i]: the bytes of its slot of the transfer
    buffer that follow the 12-byte header. *)
Definition packet_payload (pUrb : USBHST_URB) (i : Z) : list Z :=
  map (fun j => pTransferBuffer pUrb
                  (i * ISOCHRONOUS_BUFFER_SIZE + HEADER_LENGTH + Z.of_nat j))
      (seq 0 (Z.to_nat (uLength (pTransferSpecificData pUrb i) - HEADER_LENGTH))).

(** Reassembly on lists: the bytes of the frame being received after the
    [n] packets from [i], when the frame ID is [fid] and [frame] holds
    the bytes received so far.  Header-only packets are skipped, a packet
    with another FID bit starts the frame anew, any other packet is
    appended. *)
Fixpoint reassemble (n : nat) (pUrb : USBHST_URB) (i fid : Z) (frame : list Z) : list Z :=
  match n with
  | O => frame
  | S n' =>
      if uLength (pTransferSpecificData pUrb i) =? HEADER_LENGTH
      then reassemble n' pUrb (i + 1) fid frame
      else if fid =? packet_fid pUrb i
           then reassemble n' pUrb (i + 1) fid (frame ++ packet_payload pUrb i)
           else reassemble n' pUrb (i + 1) (packet_fid pUrb i) (packet_payload pUrb i)
  end.

(** image_buffer holds [frame] in its first bytes and offset is its length. *)
Definition holds_frame (g : globals) (frame : list Z) : Prop :=
  offset g = Z.of_nat (length frame)
  /\ forall k : nat, (k < length frame)%nat -> image_buffer g (Z.of_nat k) = nth k frame 0.

(** ** Counting events *)

Definition is_spawn_ok (e : event) : bool :=
  match e with EvTaskSpawn true => true | _ => false end.

Definition is_deregister (e : event) : bool :=
  match e with EvDriverDeregister => true | _ => false end.

Definition is_iso_submit (e : event) : bool :=
  match e with EvIsoSubmit _ => true | _ => false end.

(** 1 when the next packet of the current frame will take the semaphore. *)
Definition take_pending (g : globals) : nat := if first g =? 1 then 1%nat else 0%nat.

(** A memcpy that reads the payload area of one slot of the transfer
    buffer: it starts after the header of a packet [i] and ends within
    the slot of that packet, inside the buffer. *)
Definition copy_reads_transfer_buffer (e : event) : Prop :=
  match e with
  | EvMemcpy _ src_off n =>
      exists i : Z,
        0 <= i < NUMBER_OF_ISOCHRONOUS_PACKETS
        /\ src_off = i * ISOCHRONOUS_BUFFER_SIZE + HEADER_LENGTH
        /\ 0 <= n
        /\ src_off + n <= (i + 1) * ISOCHRONOUS_BUFFER_SIZE
        /\ (i + 1) * ISOCHRONOUS_BUFFER_SIZE <= ISOCHRONOUS_TRANSFER_LENGTH
  | _ => True
  end.

(** Every global within the range of its C type. *)
Definition globals_in_range (g : globals) : Prop :=
  length (data g) = 26%nat
  /\ 0 <= offset g < 4294967296
  /\ 0 <= frameCount g < 65536
  /\ (mem_h g = 0 \/ mem_h g = 1)
  /\ (end_of_image g = 0 \/ end_of_image g = 1)
  /\ (aborted g = 0 \/ aborted g = 1)
  /\ (first g = 0 \/ first g = 1).

(** ** The descriptors Isochronous_Transfer builds

    for(i = 0; i < NUMBER_OF_ISOCHRONOUS_PACKETS; i++) on the zeroed
    array OSS_CALLOC returned: slot size, slot offset, success. *)
Definition fresh_descriptors : Z -> USBHST_ISO_PACKET_DESC :=
  fun i =>
    if (0 <=? i) && (i <? NUMBER_OF_ISOCHRONOUS_PACKETS)
    then mkDesc ISOCHRONOUS_BUFFER_SIZE (uint32 (ISOCHRONOUS_BUFFER_SIZE * uint32 i))
                USBHST_SUCCESS
    else mkDesc 0 0 0.

(** * Properties *)

(** ** Machine integers *)

Lemma int32_small (x : Z) : -2147483648 <= x < 2147483648 -> int32 x = x.
Proof. intros H. unfold int32. rewrite Z.mod_small; lia. Qed.

Lemma int16_small (x : Z) : -32768 <= x < 32768 -> int16 x = x.
Proof. intros H. unfold int16. rewrite Z.mod_small; lia. Qed.

Lemma uint32_small (x : Z) : 0 <= x < 4294967296 -> uint32 x = x.
Proof. intros H. unfold uint32. apply Z.mod_small; lia. Qed.

Lemma uint16_small (x : Z) : 0 <= x < 65536 -> uint16 x = x.
Proof. intros H. unfold uint16. apply Z.mod_small; lia. Qed.

Lemma uint16_range (x : Z) : 0 <= uint16 x < 65536.
Proof. unfold uint16. apply Z.mod_pos_bound. lia. Qed.

Lemma uint32_range (x : Z) : 0 <= uint32 x < 4294967296.
Proof. unfold uint32. apply Z.mod_pos_bound. lia. Qed.

Lemma store_char_small (x : Z) : 0 <= x <= 255 -> store_char x = x.
Proof. intros H. unfold store_char. apply Z.mod_small; lia. Qed.

(** ** Format conversion *)

Ltac int32_exact :=
  repeat match goal with
         | |- context [int32 ?x] => rewrite (int32_small x) by lia
         end.

(** The two-sided saturation of YUV2RGB is [clamp]. *)
Lemma saturate_clamp (q : Z) :
  store_char (let q1 := if q >? 255 then 255 else q in if q1 <? 0 then 0 else q1)
  = clamp q 0 255.
Proof.
  cbv zeta. unfold clamp. rewrite Z.gtb_ltb.
  destruct (Z.ltb_spec 255 q) as [Hq | Hq].
  - change (255 <? 0) with false. cbv iota. rewrite store_char_small; lia.
  - destruct (Z.ltb_spec q 0) as [Hn | Hn]; rewrite store_char_small; lia.
Qed.

Lemma YUV2RGB_unfold (y u v : Z) :
  0 <= y <= 255 -> 0 <= u <= 255 -> 0 <= v <= 255 ->
  YUV2RGB y u v =
    (clamp (Z.shiftr (298 * (y - 16) + 409 * (v - 128) + 128) 8) 0 255,
     clamp (Z.shiftr (298 * (y - 16) - 100 * (u - 128) - 208 * (v - 128) + 128) 8) 0 255,
     clamp (Z.shiftr (298 * (y - 16) + 516 * (u - 128) + 128) 8) 0 255).
Proof.
  intros Hy Hu Hv. unfold YUV2RGB. cbv zeta. int32_exact.
  rewrite <- !saturate_clamp. cbv zeta. reflexivity.
Qed.

(** C2.  For all bytes y, u, v the triple computed by YUV2RGB is the one
    of the specification: c = y - 16, d = u - 128, e = v - 128 and
    r = clamp((298c + 409e + 128) >> 8), g = clamp((298c - 100d - 208e + 128) >> 8),
    b = clamp((298c + 516d + 128) >> 8), in exact integer arithmetic (no
    32-bit intermediate wraps) and saturated to 0..255 on both sides;
    (16,128,128) gives (0,0,0) and (235,128,128) gives (255,255,255). *)
Theorem YUV2RGB_conversion (y u v : Z) :
  0 <= y <= 255 -> 0 <= u <= 255 -> 0 <= v <= 255 ->
  YUV2RGB y u v = spec_convert y u v
  /\ (let '(r, g, b) := YUV2RGB y u v in
      0 <= r <= 255 /\ 0 <= g <= 255 /\ 0 <= b <= 255)
  /\ YUV2RGB 16 128 128 = (0, 0, 0)
  /\ YUV2RGB 235 128 128 = (255, 255, 255).
Proof.
  intros Hy Hu Hv. split; [|split; [|split; reflexivity]].
  - rewrite YUV2RGB_unfold by assumption. reflexivity.
  - rewrite YUV2RGB_unfold by assumption. unfold clamp. lia.
Qed.

(** The theorem at a triple that saturates on both sides. *)
Lemma YUV2RGB_conversion_witness :
  YUV2RGB 255 0 255 = spec_convert 255 0 255
  /\ (let '(r, g, b) := YUV2RGB 255 0 255 in
      0 <= r <= 255 /\ 0 <= g <= 255 /\ 0 <= b <= 255)
  /\ YUV2RGB 16 128 128 = (0, 0, 0)
  /\ YUV2RGB 235 128 128 = (255, 255, 255).
Proof. apply (YUV2RGB_conversion 255 0 255); lia. Defined.

(** Saturation is reached on both sides. *)
Example YUV2RGB_saturates :
  YUV2RGB 255 0 255 = (255, 225, 20) /\ YUV2RGB 0 0 255 = (184, 0, 0).
Proof. split; reflexivity. Qed.

(** One pass of processImage over a buffer of bytes: the quadruple
    (Y0, U, Y1, V) gives the pixels of (Y0, U, V) and (Y1, U, V). *)
Lemma processImage_loop_pass (n : nat) (pptr : buffer) (i : Z) :
  (forall k : Z, 0 <= pptr k <= 255) ->
  processImage_loop (S n) pptr i
  = (let '(r, g, b) := spec_convert (pptr i) (pptr (i + 1)) (pptr (i + 3)) in
     let '(r2, g2, b2) := spec_convert (pptr (i + 2)) (pptr (i + 1)) (pptr (i + 3)) in
     r :: g :: b :: r2 :: g2 :: b2 :: processImage_loop n pptr (i + 4)).
Proof.
  intros H. cbn [processImage_loop].
  assert (H0 := H i). assert (H1 := H (i + 1)).
  assert (H2 := H (i + 2)). assert (H3 := H (i + 3)).
  rewrite !int16_small by lia.
  rewrite !YUV2RGB_unfold by assumption. reflexivity.
Qed.

Lemma processImage_loop_length (n : nat) (pptr : buffer) :
  forall i : Z, length (processImage_loop n pptr i) = (6 * n)%nat.
Proof.
  induction n as [| n IH]; intros i; [reflexivity |].
  cbn [processImage_loop].
  destruct (YUV2RGB _ _ _) as [[r g] b]. destruct (YUV2RGB _ _ _) as [[r2 g2] b2].
  cbn [length]. rewrite IH. lia.
Qed.

(** ** Frame reassembly: the cases of one pass of the packet loop *)

Lemma packet_fid_bit (pUrb : USBHST_URB) (i : Z) :
  packet_fid pUrb i = 0 \/ packet_fid pUrb i = 1.
Proof.
  unfold packet_fid. set (x := pTransferBuffer pUrb _).
  assert (E : Z.land x 1 = x mod 2) by (apply (Z.land_ones x 1); lia).
  rewrite E. assert (H := Z.mod_pos_bound x 2). lia.
Qed.

Lemma uint8_packet_fid (pUrb : USBHST_URB) (i : Z) :
  uint8 (packet_fid pUrb i) = packet_fid pUrb i.
Proof. destruct (packet_fid_bit pUrb i) as [H | H]; rewrite H; reflexivity. Qed.

(** A packet of header-only length: nothing happens. *)
Lemma iso_packet_skip (spawn_ok : bool) (pUrb : USBHST_URB) (i : Z) (g : globals) :
  uLength (pTransferSpecificData pUrb i) = HEADER_LENGTH ->
  iso_packet spawn_ok pUrb i g = (Next g, []).
Proof.
  intros H. unfold iso_packet. rewrite H, Z.eqb_refl. simpl.
  destruct (negb _); reflexivity.
Qed.

(** A packet of the current frame. *)
Lemma iso_packet_continue (spawn_ok : bool) (pUrb : USBHST_URB) (i : Z) (g : globals) :
  let d := pTransferSpecificData pUrb i in
  uLength d <> HEADER_LENGTH ->
  mem_h g = packet_fid pUrb i ->
  iso_packet spawn_ok pUrb i g =
    (Next (mkGlobals (data g)
             (memcpy (image_buffer g) (offset g) (pTransferBuffer pUrb)
                     (i * ISOCHRONOUS_BUFFER_SIZE + HEADER_LENGTH) (copy_length d))
             (uint32 (offset g + copy_length d))
             (frameCount g) (mem_h g) (end_of_image g) (aborted g)
             (if first g =? 1 then 0 else first g)),
     (if first g =? 1 then [EvSemTake] else [])
       ++ [EvMemcpy (offset g) (i * ISOCHRONOUS_BUFFER_SIZE + HEADER_LENGTH) (copy_length d)]).
Proof.
  intros d Hlen Hfid. unfold iso_packet. fold d.
  destruct (Z.eqb_spec (uLength d) HEADER_LENGTH) as [E | _]; [contradiction|].
  destruct (Z.eqb_spec (mem_h g) (packet_fid pUrb i)) as [_ | N]; [|contradiction].
  cbn [negb].
  destruct (first g =? 1); cbn; destruct (negb _); reflexivity.
Qed.

(** The first packet of a new frame, taskSpawn succeeding. *)
Lemma iso_packet_boundary (pUrb : USBHST_URB) (i : Z) (g : globals) :
  let d := pTransferSpecificData pUrb i in
  uLength d <> HEADER_LENGTH ->
  mem_h g <> packet_fid pUrb i ->
  iso_packet true pUrb i g =
    (Next (mkGlobals (data g)
             (memcpy (memset (image_buffer g) 0 sizeof_image_buffer) 0 (pTransferBuffer pUrb)
                     (i * ISOCHRONOUS_BUFFER_SIZE + HEADER_LENGTH) (copy_length d))
             (uint32 (0 + copy_length d))
             (uint16 (frameCount g - 1)) (packet_fid pUrb i) 1
             (if uint16 (frameCount g - 1) =? 0 then 1 else aborted g)
             1),
     [EvTaskSpawn true; EvMemset sizeof_image_buffer;
      EvMemcpy 0 (i * ISOCHRONOUS_BUFFER_SIZE + HEADER_LENGTH) (copy_length d)]).
Proof.
  intros d Hlen Hfid. unfold iso_packet. fold d.
  destruct (Z.eqb_spec (uLength d) HEADER_LENGTH) as [E | _]; [contradiction|].
  destruct (Z.eqb_spec (mem_h g) (packet_fid pUrb i)) as [E | _]; [contradiction|].
  cbn [negb]. rewrite uint8_packet_fid. cbn.
  destruct (uint16 (frameCount g - 1) =? 0); cbn; destruct (negb _); reflexivity.
Qed.

(** The first packet of a new frame, taskSpawn failing. *)
Lemma iso_packet_boundary_failed (pUrb : USBHST_URB) (i : Z) (g : globals) :
  let d := pTransferSpecificData pUrb i in
  uLength d <> HEADER_LENGTH ->
  mem_h g <> packet_fid pUrb i ->
  iso_packet false pUrb i g =
    (ReturnError (mkGlobals (data g) (image_buffer g) 0
                    (uint16 (frameCount g - 1)) (packet_fid pUrb i) 1
                    (if uint16 (frameCount g - 1) =? 0 then 1 else aborted g)
                    (first g)),
     [EvTaskSpawn false; EvLogMsg; EvDriverDeregister]).
Proof.
  intros d Hlen Hfid. unfold iso_packet. fold d.
  destruct (Z.eqb_spec (uLength d) HEADER_LENGTH) as [E | _]; [contradiction|].
  destruct (Z.eqb_spec (mem_h g) (packet_fid pUrb i)) as [E | _]; [contradiction|].
  cbn [negb]. rewrite uint8_packet_fid. cbn.
  destruct (uint16 (frameCount g - 1) =? 0); reflexivity.
Qed.

Lemma boundaries_app (tr1 tr2 : trace) :
  boundaries (tr1 ++ tr2) = (boundaries tr1 + boundaries tr2)%nat.
Proof. unfold boundaries. rewrite filter_app, length_app. reflexivity. Qed.

(** The three ways a pass can go, for case analysis. *)
Lemma iso_packet_cases (pUrb : USBHST_URB) (i : Z) (g : globals) :
  let d := pTransferSpecificData pUrb i in
  uLength d = HEADER_LENGTH
  \/ (uLength d <> HEADER_LENGTH /\ mem_h g = packet_fid pUrb i)
  \/ (uLength d <> HEADER_LENGTH /\ mem_h g <> packet_fid pUrb i).
Proof.
  intros d.
  destruct (Z.eq_dec (uLength d) HEADER_LENGTH); [now left | right].
  destruct (Z.eq_dec (mem_h g) (packet_fid pUrb i)); [left | right]; now split.
Qed.

(** Over a run of packets, all spawns succeeding, the frame boundaries
    are the FID toggles of the packets that are not header-only. *)
Lemma iso_packet_loop_boundaries (n : nat) (pUrb : USBHST_URB) :
  forall (i : Z) (g : globals),
    boundaries (snd (iso_packet_loop n spawn_always pUrb i g))
    = length (fid_toggles n pUrb i (mem_h g)).
Proof.
  induction n as [| n IH]; intros i g; [reflexivity|].
  cbn [iso_packet_loop fid_toggles]. unfold spawn_always at 1.
  destruct (iso_packet_cases pUrb i g) as [Hs | [[Hl Hf] | [Hl Hf]]].
  - rewrite (iso_packet_skip true pUrb i g Hs), Hs, Z.eqb_refl.
    specialize (IH (i + 1) g).
    destruct (iso_packet_loop n spawn_always pUrb (i + 1) g) as [r tr]. exact IH.
  - rewrite (iso_packet_continue true pUrb i g Hl Hf).
    destruct (Z.eqb_spec (uLength (pTransferSpecificData pUrb i)) HEADER_LENGTH);
      [contradiction|].
    destruct (Z.eqb_spec (mem_h g) (packet_fid pUrb i)); [|contradiction].
    match goal with |- context [iso_packet_loop n spawn_always pUrb (i + 1) ?g1] =>
      specialize (IH (i + 1) g1); destruct (iso_packet_loop n spawn_always pUrb (i + 1) g1) as [r tr]
    end.
    cbn [snd mem_h] in *. rewrite boundaries_app, IH.
    destruct (first g =? 1); reflexivity.
  - rewrite (iso_packet_boundary pUrb i g Hl Hf).
    destruct (Z.eqb_spec (uLength (pTransferSpecificData pUrb i)) HEADER_LENGTH);
      [contradiction|].
    destruct (Z.eqb_spec (mem_h g) (packet_fid pUrb i)); [contradiction|].
    match goal with |- context [iso_packet_loop n spawn_always pUrb (i + 1) ?g1] =>
      specialize (IH (i + 1) g1); destruct (iso_packet_loop n spawn_always pUrb (i + 1) g1) as [r tr]
    end.
    cbn [snd mem_h] in *. rewrite boundaries_app, IH. reflexivity.
Qed.

(** C3.  A packet whose descriptor reports the header-only length (12)
    is skipped entirely: the pass leaves every global (frame buffer,
    offset, frame ID, quota) as it was and logs nothing, whatever its FID
    bit.  Any other packet starts a new frame exactly when its FID bit
    differs from the stored frame ID, whatever its length and the current
    offset; so over any run of packets the frame boundaries are the FID
    toggles of the packets that are not header-only. *)
Theorem header_only_packets_never_toggle
    (spawn_ok : bool) (pUrb : USBHST_URB) (i : Z) (g : globals) :
  (uLength (pTransferSpecificData pUrb i) = HEADER_LENGTH ->
     iso_packet spawn_ok pUrb i g = (Next g, []))
  /\ (uLength (pTransferSpecificData pUrb i) <> HEADER_LENGTH ->
      let '(r, tr) := iso_packet spawn_ok pUrb i g in
      (mem_h g <> packet_fid pUrb i -> boundaries tr = 1%nat)
      /\ (mem_h g = packet_fid pUrb i -> boundaries tr = 0%nat)
      /\ mem_h (flow_globals r) = packet_fid pUrb i)
  /\ (forall n : nat,
        boundaries (snd (iso_packet_loop n spawn_always pUrb i g))
        = length (fid_toggles n pUrb i (mem_h g))).
Proof.
  split; [apply iso_packet_skip | split; [| intros n; apply iso_packet_loop_boundaries]].
  intros Hl.
  destruct (Z.eq_dec (mem_h g) (packet_fid pUrb i)) as [Hf | Hf].
  - rewrite (iso_packet_continue spawn_ok pUrb i g Hl Hf). cbn [flow_globals mem_h].
    split; [intros N; contradiction | split; [intros _ | exact Hf]].
    destruct (first g =? 1); reflexivity.
  - destruct spawn_ok.
    + rewrite (iso_packet_boundary pUrb i g Hl Hf). cbn [flow_globals mem_h].
      split; [reflexivity | split; [intros E; contradiction | reflexivity]].
    + rewrite (iso_packet_boundary_failed pUrb i g Hl Hf). cbn [flow_globals mem_h].
      split; [reflexivity | split; [intros E; contradiction | reflexivity]].
Qed.

(** The theorem at a header-only packet whose FID bit (1) differs from
    the stored frame ID (0), packet 5 of [urb_new_frame1], and at the
    full packet 0 of the same transfer, which starts a new frame. *)
Lemma header_only_packets_never_toggle_witness :
  iso_packet true urb_new_frame1 5 initial_globals = (Next initial_globals, [])
  /\ (let '(r, tr) := iso_packet true urb_new_frame1 0 initial_globals in
      (mem_h initial_globals <> packet_fid urb_new_frame1 0 -> boundaries tr = 1%nat)
      /\ (mem_h initial_globals = packet_fid urb_new_frame1 0 -> boundaries tr = 0%nat)
      /\ mem_h (flow_globals r) = packet_fid urb_new_frame1 0).
Proof.
  split.
  - apply (proj1 (header_only_packets_never_toggle true urb_new_frame1 5 initial_globals)).
    reflexivity.
  - apply (proj1 (proj2 (header_only_packets_never_toggle true urb_new_frame1 0
                           initial_globals))).
    vm_compute. discriminate.
Defined.

(** ** Packet status *)

(** One pass of the packet loop does not depend on the packet status:
    the test of nStatus comes after the copy and both its branches go on
    to the next packet. *)
Lemma iso_packet_ignores_status (spawn_ok : bool) (pUrb : USBHST_URB) (status : Z -> Z)
    (i : Z) (g : globals) :
  iso_packet spawn_ok (with_status pUrb status) i g = iso_packet spawn_ok pUrb i g.
Proof.
  unfold iso_packet, copy_payload, copy_length, packet_fid, with_status. cbn.
  repeat match goal with
         | |- context [if ?b then _ else _] => destruct b; cbn
         end; reflexivity.
Qed.

(** C6 (the code departs from the claim).  On the completion
    [urb_failed_packet], whose packet 0 is a full packet of the current
    frame with status USBHST_FAILURE, the callback copies the 932 payload
    bytes of that packet into image_buffer and advances the offset by
    932, exactly as for a packet with status USBHST_SUCCESS. *)
Theorem failed_packet_payload_is_copied :
  let r := Isochronous_Completion_Callback spawn_always urb_failed_packet initial_globals in
  nStatus (pTransferSpecificData urb_failed_packet 0) = USBHST_FAILURE
  /\ res_trace r = [EvSemTake; EvMemcpy 0 12 932; EvIsoResubmit]
  /\ offset (res_globals r) = 932
  /\ image_buffer initial_globals 0 = 0
  /\ image_buffer (res_globals r) 0 = 0x77
  /\ image_buffer (res_globals r) 931 = 0x77
  /\ res_status r = USBHST_SUCCESS.
Proof. cbv zeta. repeat split; vm_compute; reflexivity. Qed.

(** ** Packets shorter than the header *)

Lemma copy_length_short (d : USBHST_ISO_PACKET_DESC) :
  0 <= uLength d < HEADER_LENGTH ->
  copy_length d = uLength d - HEADER_LENGTH + 4294967296.
Proof.
  intros H. unfold copy_length, uint32, HEADER_LENGTH in *.
  symmetry. apply (Z.mod_unique _ _ (-1)); lia.
Qed.

(** C10.  A packet whose descriptor reports a length below the 12-byte
    header length (a zero-length packet, for one) is not skipped: the
    length handed to memcpy is (length - 12) computed as an unsigned
    32-bit value, that is length - 12 + 2^32, at least 2^32 - 12, and
    the offset advances by that amount modulo 2^32. *)
Theorem short_packet_copy_length_wraps (pUrb : USBHST_URB) (i : Z) (g : globals) :
  0 <= uLength (pTransferSpecificData pUrb i) < HEADER_LENGTH ->
  let d := pTransferSpecificData pUrb i in
  let '(r, tr) := iso_packet true pUrb i g in
  copy_length d = uLength d - 12 + 2 ^ 32
  /\ 2 ^ 32 - 12 <= copy_length d
  /\ exists dst : Z,
       In (EvMemcpy dst (i * ISOCHRONOUS_BUFFER_SIZE + HEADER_LENGTH) (uLength d - 12 + 2 ^ 32)) tr
       /\ offset (flow_globals r) = uint32 (dst + (uLength d - 12 + 2 ^ 32)).
Proof.
  intros H d.
  assert (Hc : copy_length d = uLength d - 12 + 2 ^ 32) by (apply copy_length_short; exact H).
  assert (Hl : uLength d <> HEADER_LENGTH) by (subst d; unfold HEADER_LENGTH in *; lia).
  assert (Hb : 2 ^ 32 - 12 <= uLength d - 12 + 2 ^ 32)
    by (subst d; unfold HEADER_LENGTH in *; lia).
  destruct (Z.eq_dec (mem_h g) (packet_fid pUrb i)) as [Hf | Hf].
  - rewrite (iso_packet_continue true pUrb i g Hl Hf). fold d. rewrite Hc.
    split; [reflexivity | split; [exact Hb |]].
    exists (offset g). split; [| reflexivity].
    apply in_or_app. right. left. reflexivity.
  - rewrite (iso_packet_boundary pUrb i g Hl Hf). fold d. rewrite Hc.
    split; [reflexivity | split; [exact Hb |]].
    exists 0. split; [| reflexivity].
    right. right. left. reflexivity.
Qed.

(** The theorem at the zero-length packet 0 of [urb_empty_packet]. *)
Lemma short_packet_copy_length_wraps_witness :
  let d := pTransferSpecificData urb_empty_packet 0 in
  let '(r, tr) := iso_packet true urb_empty_packet 0 initial_globals in
  copy_length d = uLength d - 12 + 2 ^ 32
  /\ 2 ^ 32 - 12 <= copy_length d
  /\ exists dst : Z,
       In (EvMemcpy dst (0 * ISOCHRONOUS_BUFFER_SIZE + HEADER_LENGTH) (uLength d - 12 + 2 ^ 32)) tr
       /\ offset (flow_globals r) = uint32 (dst + (uLength d - 12 + 2 ^ 32)).
Proof.
  apply (short_packet_copy_length_wraps urb_empty_packet 0 initial_globals).
  vm_compute. split; [discriminate | reflexivity].
Defined.

(** The zero-length packet in numbers: a copy of 4294967284 bytes. *)
Example empty_packet_copy :
  snd (iso_packet true urb_empty_packet 0 initial_globals) = [EvSemTake; EvMemcpy 0 12 4294967284]
  /\ offset (flow_globals (fst (iso_packet true urb_empty_packet 0 initial_globals))) = 4294967284.
Proof. split; vm_compute; reflexivity. Qed.

(** ** The frame buffer and the semaphore *)

(** The pass that starts a new frame clears image_buffer and copies the
    first payload without taking the semaphore. *)
Lemma boundary_pass_takes_no_semaphore (pUrb : USBHST_URB) (i : Z) (g : globals) :
  uLength (pTransferSpecificData pUrb i) <> HEADER_LENGTH ->
  mem_h g <> packet_fid pUrb i ->
  let '(r, tr) := iso_packet true pUrb i g in
  filter is_semTake tr = []
  /\ In (EvMemset sizeof_image_buffer) tr
  /\ (forall k, copy_length (pTransferSpecificData pUrb i) <= k < sizeof_image_buffer ->
        image_buffer (flow_globals r) k = 0).
Proof.
  intros Hl Hf. rewrite (iso_packet_boundary pUrb i g Hl Hf).
  split; [reflexivity | split; [right; left; reflexivity |]].
  intros k Hk. cbn [flow_globals image_buffer]. unfold memcpy, memset.
  assert (H0 := uint32_range (uLength (pTransferSpecificData pUrb i) - HEADER_LENGTH)).
  fold (copy_length (pTransferSpecificData pUrb i)) in H0.
  destruct (Z.leb_spec 0 k); [| lia].
  destruct (Z.ltb_spec k (0 + copy_length (pTransferSpecificData pUrb i))); [lia |].
  destruct (Z.ltb_spec k sizeof_image_buffer); [reflexivity | lia].
Qed.

(** C1 (the code departs from the claim).  From [globals_frame0] the
    completion [urb_new_frame1] starts a new frame at its packet 0.  The
    callback spawns processImage on image_buffer, clears image_buffer and
    copies the first 932 payload bytes of the new frame, and only then,
    at packet 1, takes the semaphore: after packet 0 and before any
    semTake the buffer handed to the task no longer holds the previous
    frame (0x55) but bytes of the new one (0xAA) and zeros, so that a
    task that reads it from then on converts bytes of the new frame and
    of the cleared buffer, not those of the frame it was spawned for. *)
Theorem new_frame_written_before_semTake :
  let r := Isochronous_Completion_Callback spawn_always urb_new_frame1 globals_frame0 in
  let '(f0, tr0) := iso_packet true urb_new_frame1 0 globals_frame0 in
  res_trace r = [EvTaskSpawn true; EvMemset 38400; EvMemcpy 0 12 932;
                 EvSemTake; EvMemcpy 932 956 932; EvIsoResubmit]
  /\ tr0 = [EvTaskSpawn true; EvMemset 38400; EvMemcpy 0 12 932]
  /\ image_buffer globals_frame0 0 = 0x55
  /\ image_buffer globals_frame0 5000 = 0x55
  /\ image_buffer (flow_globals f0) 0 = 0xAA
  /\ image_buffer (flow_globals f0) 5000 = 0
  /\ processImage_loop 1 (image_buffer globals_frame0) 0 = [12; 132; 0; 12; 132; 0]
  /\ processImage_loop 1 (image_buffer (flow_globals f0)) 0 = [246; 129; 255; 246; 129; 255]
  /\ processImage_loop 1 (image_buffer (flow_globals f0)) 5000 = [0; 135; 0; 0; 135; 0].
Proof. cbv zeta. vm_compute. repeat split; reflexivity. Qed.

(** ** Frame quota *)

(** C4 (the code departs from the claim).  From the initial quota of 500
    the 500th frame boundary sets the abort flag and leaves the quota at
    0; the callback goes on with the remaining packets of the batch, and
    the 501st boundary decrements the 16-bit quota from 0 to 65535.  The
    42nd completion as a whole ends with the quota at 65532, the abort
    flag set, and no resubmission. *)
Theorem frameCount_wraps_after_abort :
  let g41 := fst (completions (repeat (spawn_always, urb_toggling) 41) initial_globals) in
  let r42 := Isochronous_Completion_Callback spawn_always urb_toggling g41 in
  frameCount initial_globals = 500
  /\ boundaries (snd (completions (repeat (spawn_always, urb_toggling) 41) initial_globals))
     = 492%nat
  /\ frameCount g41 = 8 /\ aborted g41 = 0
  /\ frameCount globals_quota_spent = 0 /\ aborted globals_quota_spent = 1
  /\ frameCount (flow_globals (fst (iso_packet true urb_toggling 8 globals_quota_spent))) = 65535
  /\ frameCount (res_globals r42) = 65532
  /\ aborted (res_globals r42) = 1
  /\ filter is_resubmit (res_trace r42) = [].
Proof. cbv zeta. repeat split; vm_compute; reflexivity. Qed.

(** What one pass does to the quota and to the abort flag: nothing, or,
    at a frame boundary, a 16-bit decrement and the flag set on zero. *)
Lemma iso_packet_quota (spawn_ok : bool) (pUrb : USBHST_URB) (i : Z) (g : globals) :
  let '(r, tr) := iso_packet spawn_ok pUrb i g in
  (boundaries tr = 0%nat
   /\ frameCount (flow_globals r) = frameCount g
   /\ aborted (flow_globals r) = aborted g
   /\ filter is_resubmit tr = [])
  \/ (boundaries tr = 1%nat
      /\ frameCount (flow_globals r) = uint16 (frameCount g - 1)
      /\ aborted (flow_globals r)
         = (if frameCount (flow_globals r) =? 0 then 1 else aborted g)
      /\ filter is_resubmit tr = []).
Proof.
  destruct (iso_packet_cases pUrb i g) as [Hs | [[Hl Hf] | [Hl Hf]]].
  - rewrite (iso_packet_skip spawn_ok pUrb i g Hs). left. repeat split.
  - rewrite (iso_packet_continue spawn_ok pUrb i g Hl Hf). left.
    destruct (first g =? 1); repeat split.
  - destruct spawn_ok.
    + rewrite (iso_packet_boundary pUrb i g Hl Hf). right. repeat split.
    + rewrite (iso_packet_boundary_failed pUrb i g Hl Hf). right. repeat split.
Qed.

(** Starting from a quota that the run does not exhaust more than once,
    the quota is the initial one minus the number of frame boundaries,
    and the abort flag is set exactly when the quota has reached zero. *)
Lemma quota_counts_boundaries (n : nat) (spawn : Z -> bool) (pUrb : USBHST_URB) :
  forall (i : Z) (g : globals),
    0 <= frameCount g < 65536 ->
    let '(r, tr) := iso_packet_loop n spawn pUrb i g in
    Z.of_nat (boundaries tr) <= frameCount g ->
    frameCount (flow_globals r) = frameCount g - Z.of_nat (boundaries tr)
    /\ aborted (flow_globals r)
       = (if (0 <? Z.of_nat (boundaries tr)) && (frameCount (flow_globals r) =? 0)
          then 1 else aborted g).
Proof.
  induction n as [| n IH]; intros i g Hfc.
  - cbn. intros _. split; [lia | reflexivity].
  - cbn [iso_packet_loop].
    assert (P := iso_packet_quota (spawn i) pUrb i g).
    destruct (iso_packet (spawn i) pUrb i g) as [[g1 | g1] tr1]; cbn [flow_globals] in P.
    + assert (Hfc1 : 0 <= frameCount g1 < 65536).
      { destruct P as [(_ & E & _) | (_ & E & _)]; rewrite E;
          [exact Hfc | apply uint16_range]. }
      specialize (IH (i + 1) g1 Hfc1).
      destruct (iso_packet_loop n spawn pUrb (i + 1) g1) as [r tr2].
      rewrite boundaries_app. intros Hk.
      destruct P as [(B & E & A & _) | (B & E & A & _)]; rewrite B in *.
      * rewrite E, A in IH. apply IH. lia.
      * assert (E1 : frameCount g1 = frameCount g - 1)
          by (rewrite E; apply uint16_small; lia).
        destruct IH as [IH1 IH2]; [lia |]. split; [lia |].
        rewrite IH2, A.
        destruct (Z.ltb_spec 0 (Z.of_nat (boundaries tr2)));
          destruct (Z.eqb_spec (frameCount (flow_globals r)) 0);
          destruct (Z.eqb_spec (frameCount g1) 0);
          destruct (Z.ltb_spec 0 (Z.of_nat (1 + boundaries tr2))); cbn; lia.
    + intros Hk.
      destruct P as [(B & E & A & _) | (B & E & A & _)]; rewrite B in *; cbn [flow_globals].
      * split; [cbn; lia | rewrite A; reflexivity].
      * assert (E1 : frameCount g1 = frameCount g - 1)
          by (rewrite E; apply uint16_small; lia).
        split; [lia |]. rewrite A. reflexivity.
Qed.

(** The abort flag, once set, stays set through the packet loop, and the
    packet loop itself never resubmits. *)
Lemma iso_packet_loop_abort (n : nat) (spawn : Z -> bool) (pUrb : USBHST_URB) :
  forall (i : Z) (g : globals),
    let '(r, tr) := iso_packet_loop n spawn pUrb i g in
    (aborted g = 1 -> aborted (flow_globals r) = 1)
    /\ filter is_resubmit tr = [].
Proof.
  induction n as [| n IH]; intros i g; [cbn; auto |].
  cbn [iso_packet_loop].
  assert (P := iso_packet_quota (spawn i) pUrb i g).
  destruct (iso_packet (spawn i) pUrb i g) as [[g1 | g1] tr1]; cbn [flow_globals] in P.
  - specialize (IH (i + 1) g1).
    destruct (iso_packet_loop n spawn pUrb (i + 1) g1) as [r tr2].
    destruct IH as [IH1 IH2]. rewrite filter_app, IH2.
    destruct P as [(_ & _ & A & F) | (_ & _ & A & F)]; rewrite F; split; try reflexivity;
      intros Ha; apply IH1; rewrite A; [exact Ha |].
    destruct (frameCount g1 =? 0); [reflexivity | exact Ha].
  - cbn [flow_globals].
    destruct P as [(_ & _ & A & F) | (_ & _ & A & F)]; rewrite F; split; try reflexivity;
      intros Ha; rewrite A; [exact Ha |].
    destruct (frameCount g1 =? 0); [reflexivity | exact Ha].
Qed.

(** A completion that ends with the abort flag set does not resubmit its
    transfer, and a completion entered with the flag set ends with it set. *)
Lemma abort_blocks_resubmission (spawn : Z -> bool) (pUrb : USBHST_URB) (g : globals) :
  let r := Isochronous_Completion_Callback spawn pUrb g in
  (aborted g = 1 -> aborted (res_globals r) = 1)
  /\ (aborted (res_globals r) <> 0 -> filter is_resubmit (res_trace r) = []).
Proof.
  unfold Isochronous_Completion_Callback.
  assert (P := iso_packet_loop_abort (Z.to_nat NUMBER_OF_ISOCHRONOUS_PACKETS) spawn pUrb 0 g).
  destruct (iso_packet_loop _ spawn pUrb 0 g) as [[g1 | g1] tr]; cbn [flow_globals] in P;
    destruct P as [P1 P2].
  - destruct (Z.eqb_spec (aborted g1) 0) as [E | E]; cbn [res_globals res_trace].
    + split; [exact P1 | intros N; contradiction].
    + split; [exact P1 | intros _; exact P2].
  - cbn [res_globals res_trace]. split; [exact P1 | intros _; exact P2].
Qed.

(** ** The write offset and the capacity of image_buffer *)

Lemma copy_length_exact (d : USBHST_ISO_PACKET_DESC) :
  HEADER_LENGTH < uLength d <= ISOCHRONOUS_BUFFER_SIZE ->
  copy_length d = uLength d - HEADER_LENGTH.
Proof.
  intros H. unfold copy_length. apply uint32_small.
  unfold HEADER_LENGTH, ISOCHRONOUS_BUFFER_SIZE in *. lia.
Qed.

(** Over a run of packets that keeps every frame within the buffer, the
    offset stays within the capacity and every copy stays in bounds. *)
Lemma iso_packet_loop_in_bounds (n : nat) (spawn : Z -> bool) (pUrb : USBHST_URB) :
  forall (i : Z) (g : globals),
    0 <= offset g <= sizeof_image_buffer ->
    frames_fit n pUrb i (mem_h g) (sizeof_image_buffer - offset g) ->
    let '(r, tr) := iso_packet_loop n spawn pUrb i g in
    0 <= offset (flow_globals r) <= sizeof_image_buffer
    /\ Forall copy_in_bounds tr.
Proof.
  induction n as [| n IH]; intros i g Ho Hfit.
  - cbn. split; [exact Ho | constructor].
  - cbn [iso_packet_loop frames_fit] in *.
    destruct (iso_packet_cases pUrb i g) as [Hs | [[Hl Hf] | [Hl Hf]]].
    + rewrite (iso_packet_skip (spawn i) pUrb i g Hs).
      rewrite Hs, Z.eqb_refl in Hfit.
      specialize (IH (i + 1) g Ho Hfit).
      destruct (iso_packet_loop n spawn pUrb (i + 1) g) as [r tr]. exact IH.
    + rewrite (iso_packet_continue (spawn i) pUrb i g Hl Hf).
      destruct (Z.eqb_spec (uLength (pTransferSpecificData pUrb i)) HEADER_LENGTH);
        [contradiction |].
      destruct (Z.eqb_spec (mem_h g) (packet_fid pUrb i)); [| contradiction].
      destruct Hfit as (Hlen & Hroom & Hrest).
      rewrite (copy_length_exact _ Hlen).
      set (p := uLength (pTransferSpecificData pUrb i) - HEADER_LENGTH) in *.
      assert (Hp : 0 < p) by (subst p; lia).
      assert (Eo : uint32 (offset g + p) = offset g + p).
      { apply uint32_small. unfold sizeof_image_buffer, HRES, VRES in *. lia. }
      rewrite Eo.
      match goal with |- context [iso_packet_loop n spawn pUrb (i + 1) ?g1] =>
        specialize (IH (i + 1) g1);
        destruct (iso_packet_loop n spawn pUrb (i + 1) g1) as [r tr]
      end.
      cbn [offset mem_h] in IH.
      destruct IH as [IH1 IH2]; [lia | |].
      { replace (sizeof_image_buffer - (offset g + p))
          with (sizeof_image_buffer - offset g - p) by lia. exact Hrest. }
      split; [exact IH1 |].
      apply Forall_app. split; [| exact IH2].
      apply Forall_app. split.
      * destruct (first g =? 1); [constructor; [exact I | constructor] | constructor].
      * constructor; [| constructor].
        unfold copy_in_bounds, sizeof_image_buffer, HRES, VRES in *. lia.
    + destruct (Z.eqb_spec (uLength (pTransferSpecificData pUrb i)) HEADER_LENGTH);
        [contradiction |].
      destruct (Z.eqb_spec (mem_h g) (packet_fid pUrb i)); [contradiction |].
      destruct Hfit as (Hlen & Hrest).
      assert (Hcap : uLength (pTransferSpecificData pUrb i) - HEADER_LENGTH
                     <= sizeof_image_buffer).
      { unfold sizeof_image_buffer, HRES, VRES, ISOCHRONOUS_BUFFER_SIZE, HEADER_LENGTH in *.
        lia. }
      destruct (spawn i).
      * rewrite (iso_packet_boundary pUrb i g Hl Hf).
        rewrite (copy_length_exact _ Hlen).
        set (p := uLength (pTransferSpecificData pUrb i) - HEADER_LENGTH) in *.
        assert (Eo : uint32 (0 + p) = p).
        { apply uint32_small. unfold sizeof_image_buffer, HRES, VRES in *. lia. }
        rewrite Eo.
        match goal with |- context [iso_packet_loop n spawn pUrb (i + 1) ?g1] =>
          specialize (IH (i + 1) g1);
          destruct (iso_packet_loop n spawn pUrb (i + 1) g1) as [r tr]
        end.
        cbn [offset mem_h] in IH.
        destruct IH as [IH1 IH2]; [lia | exact Hrest |].
        split; [exact IH1 |].
        apply Forall_app. split; [| exact IH2].
        constructor; [exact I |]. constructor; [exact I |].
        constructor; [| constructor].
        unfold copy_in_bounds, sizeof_image_buffer, HRES, VRES in *. lia.
      * rewrite (iso_packet_boundary_failed pUrb i g Hl Hf). cbn [flow_globals offset].
        split; [unfold sizeof_image_buffer, HRES, VRES; lia |].
        constructor; [exact I |]. constructor; [exact I |].
        constructor; [exact I | constructor].
Qed.

(** C5 (amended).  The callback has no bounds check.  What holds is
    conditional on the device: if the offset is within the capacity
    (HRES * VRES * 2 = 38400) when a transfer completes, and the packets
    of the transfer keep every frame within the buffer ([frames_fit]),
    then every payload copy of the completion stays inside image_buffer
    and the offset is within the capacity when the callback returns. *)
Theorem offset_within_capacity_when_frames_fit
    (spawn : Z -> bool) (pUrb : USBHST_URB) (g : globals) :
  0 <= offset g <= sizeof_image_buffer ->
  frames_fit (Z.to_nat NUMBER_OF_ISOCHRONOUS_PACKETS) pUrb 0 (mem_h g)
             (sizeof_image_buffer - offset g) ->
  let r := Isochronous_Completion_Callback spawn pUrb g in
  0 <= offset (res_globals r) <= sizeof_image_buffer
  /\ Forall copy_in_bounds (res_trace r).
Proof.
  intros Ho Hfit. unfold Isochronous_Completion_Callback.
  assert (P := iso_packet_loop_in_bounds _ spawn pUrb 0 g Ho Hfit).
  destruct (iso_packet_loop _ spawn pUrb 0 g) as [[g1 | g1] tr]; cbn [flow_globals] in P;
    destruct P as [P1 P2]; cbv zeta.
  - destruct (aborted g1 =? 0); cbn [res_globals res_trace]; split; try assumption.
    apply Forall_app. split; [exact P2 | constructor; [exact I | constructor]].
  - cbn [res_globals res_trace]. split; assumption.
Qed.

(** The theorem at the first completion, twelve full packets of one frame. *)
Lemma offset_within_capacity_when_frames_fit_witness :
  let r := Isochronous_Completion_Callback spawn_always urb_full_frame0 initial_globals in
  0 <= offset (res_globals r) <= sizeof_image_buffer
  /\ Forall copy_in_bounds (res_trace r).
Proof.
  apply (offset_within_capacity_when_frames_fit spawn_always urb_full_frame0 initial_globals).
  - vm_compute. split; discriminate.
  - vm_compute. intuition discriminate.
Defined.

Lemma completions_reachable (cs : list ((Z -> bool) * USBHST_URB)) :
  forall g : globals, reachable g -> reachable (fst (completions cs g)).
Proof.
  induction cs as [| [spawn pUrb] cs IH]; intros g H; [exact H |].
  cbn [completions].
  assert (R := reach_completion spawn pUrb g H).
  destruct (res_status (Isochronous_Completion_Callback spawn pUrb g) =? USBHST_SUCCESS).
  - specialize (IH _ R).
    destruct (completions cs (res_globals (Isochronous_Completion_Callback spawn pUrb g))).
    exact IH.
  - exact R.
Qed.

(** C5 as stated fails.  Four completions of twelve full packets each,
    all with the FID bit of the current frame (a device that sends more
    than 38400 bytes without toggling FID, or a frame lost between two
    frames of equal FID): the 42nd packet is copied at offset 38212 and
    runs 744 bytes past the end of image_buffer, nothing is rejected,
    every completion is resubmitted, and the offset ends at 44736. *)
Lemma offset_exceeds_capacity :
  let run := completions (repeat (spawn_always, urb_full_frame0) 4) initial_globals in
  ~ (forall g : globals, reachable g -> offset g <= sizeof_image_buffer)
  /\ reachable (fst run)
  /\ sizeof_image_buffer = 38400
  /\ offset (fst run) = 44736
  /\ nth 45 (snd run) EvLogMsg = EvMemcpy 38212 4732 932
  /\ ~ copy_in_bounds (EvMemcpy 38212 4732 932)
  /\ image_buffer (fst run) 38400 = 0x55
  /\ length (filter is_resubmit (snd run)) = 4%nat.
Proof.
  cbv zeta.
  assert (R : reachable (fst (completions (repeat (spawn_always, urb_full_frame0) 4)
                                          initial_globals)))
    by (apply completions_reachable, reach_init).
  split; [| split; [exact R | repeat split; try (vm_compute; reflexivity)]].
  - intros H. specialize (H _ R). revert H. vm_compute. intros H. apply H. reflexivity.
  - unfold copy_in_bounds. vm_compute. intros [_ H]. apply H. reflexivity.
Qed.

(** ** Frame sink *)

Lemma written_bytes_all (p : list Z) (size : Z) :
  Z.of_nat (length p) = size -> written_bytes p size size = p.
Proof.
  intros H. unfold written_bytes.
  destruct (Z.leb_spec 0 size); [| lia].
  rewrite Z.leb_refl. cbn [andb].
  rewrite <- H, Nat2Z.id. apply firstn_all.
Qed.

(** When the first write of the body takes all of it, the file is the
    header followed by the payload. *)
Lemma dump_ppm_full_write (p : list Z) (size tag : Z) :
  Z.of_nat (length p) = size -> size < 4294967296 ->
  dump_ppm [21; size] p size tag
  = Some (firstn 21 new_header ++ p,
          [EvOpen tag; EvWrite 21 21; EvWrite size size; EvSemGive; EvClose]).
Proof.
  intros Hp Hs. unfold dump_ppm, dump_ppm_loop.
  rewrite (written_bytes_all p size Hp).
  rewrite (uint32_small size) by lia. rewrite (uint32_small (0 + size)) by lia.
  destruct (Z.ltb_spec (0 + size) size); [lia |]. reflexivity.
Qed.

(** When the first write of the body takes only [k] bytes, the second
    call starts again from the first byte of the payload and asks for
    all of it: the file holds the first [k] bytes twice. *)
Lemma dump_ppm_short_write (p : list Z) (size k tag : Z) :
  Z.of_nat (length p) = size -> 0 < k < size -> size < 2147483648 ->
  dump_ppm [21; k; size] p size tag
  = Some (firstn 21 new_header ++ firstn (Z.to_nat k) p ++ p,
          [EvOpen tag; EvWrite 21 21; EvWrite size k; EvWrite size size;
           EvSemGive; EvClose]).
Proof.
  intros Hp Hk Hs. unfold dump_ppm, dump_ppm_loop.
  rewrite (written_bytes_all p size Hp).
  rewrite (uint32_small k) by lia. rewrite (uint32_small (0 + k)) by lia.
  rewrite (uint32_small size) by lia. rewrite (uint32_small (0 + k + size)) by lia.
  destruct (Z.ltb_spec (0 + k) size); [| lia].
  destruct (Z.ltb_spec (0 + k + size) size); [lia |].
  unfold written_bytes at 2.
  destruct (Z.leb_spec 0 k); [| lia]. destruct (Z.leb_spec k size); [| lia].
  cbn [andb]. rewrite <- !app_assoc. reflexivity.
Qed.

(** C9 (the code departs from the claim).  dump_ppm on the four-byte
    payload 1,2,3,4 when the first write of the body accepts two bytes
    and the second accepts four: every call passes the start of the
    payload and the full size, so the body of the file is 1,2,1,2,3,4,
    six bytes instead of the four of the payload. *)
Theorem short_write_corrupts_artifact :
  dump_ppm [21; 2; 4] [1; 2; 3; 4] 4 7
  = Some (firstn 21 new_header ++ [1; 2; 1; 2; 3; 4],
          [EvOpen 7; EvWrite 21 21; EvWrite 4 2; EvWrite 4 4; EvSemGive; EvClose])
  /\ dump_ppm [21; 4] [1; 2; 3; 4] 4 7
     = Some (firstn 21 new_header ++ [1; 2; 3; 4],
             [EvOpen 7; EvWrite 21 21; EvWrite 4 4; EvSemGive; EvClose])
  /\ dump_ppm [21; -1] [1; 2; 3; 4] 4 7
     = Some (firstn 21 new_header,
             [EvOpen 7; EvWrite 21 21; EvWrite 4 (-1); EvSemGive; EvClose]).
Proof. repeat split; vm_compute; reflexivity. Qed.

(** ** Negotiation *)

(** A transfer that succeeds: one submission with the current contents
    of data, the event released, and data replaced by what the device
    sent when the transfer is device-to-host. *)
Lemma Control_Transfer_succeeds (e : control_env) (rt rq v idx : Z) (g : globals) :
  control_succeeds e = true ->
  Control_Transfer e rt rq v idx g
  = ([EvControlSubmit rt rq v idx sizeof_data (data g); EvReleaseEvent],
     (if device_to_host rt then set_data g (receive (data g) (device_reply e)) else g),
     Returns USBHST_SUCCESS).
Proof.
  unfold control_succeeds, Control_Transfer, device_reply.
  destruct (calloc_urb e), (calloc_setup e); cbn [andb negb]; try discriminate.
  destruct (Z.eqb_spec (submit_status e) USBHST_SUCCESS); cbn [andb]; try discriminate.
  destruct (completes e) as [s bytes |]; try discriminate.
  intros H. apply Z.eqb_eq in H. subst s. reflexivity.
Qed.

(** A transfer whose completion callback gets a null pointer: the
    callback deregisters the driver, the event is never released and
    the call stays in its wait. *)
Lemma Control_Transfer_null (e : control_env) (rt rq v idx : Z) (g : globals) :
  null_completion e = true ->
  Control_Transfer e rt rq v idx g
  = ([EvControlSubmit rt rq v idx sizeof_data (data g); EvDriverDeregister], g, Blocked).
Proof.
  unfold null_completion, Control_Transfer.
  destruct (calloc_urb e), (calloc_setup e); cbn [andb negb]; try discriminate.
  destruct (Z.eqb_spec (submit_status e) USBHST_SUCCESS); cbn [andb]; try discriminate.
  destruct (completes e) as [s bytes |]; try discriminate.
  reflexivity.
Qed.

(** Any other transfer returns a status other than success, after at
    most one submission. *)
Lemma Control_Transfer_fails (e : control_env) (rt rq v idx : Z) (g : globals) :
  control_succeeds e = false -> null_completion e = false ->
  exists (tr : trace) (g' : globals) (s : Z),
    Control_Transfer e rt rq v idx g = (tr, g', Returns s)
    /\ s <> USBHST_SUCCESS
    /\ filter is_streaming tr = []
    /\ (control_requests tr = [] \/ control_requests tr = [(rt, rq, v, idx, sizeof_data)]).
Proof.
  unfold control_succeeds, null_completion, Control_Transfer.
  destruct (calloc_urb e); cbn [andb negb].
  2:{ intros _ _. exists shutDown, g, ERROR. repeat split; [discriminate | now left]. }
  destruct (calloc_setup e); cbn [andb negb].
  2:{ intros _ _. exists shutDown, g, ERROR. repeat split; [discriminate | now left]. }
  destruct (Z.eqb_spec (submit_status e) USBHST_SUCCESS) as [E | E]; cbn [andb].
  2:{ intros _ _. eexists _, g, (submit_status e). repeat split; [exact E | now right]. }
  destruct (completes e) as [s bytes |]; [| discriminate].
  intros H _. apply Z.eqb_neq in H.
  cbn. eexists _, _, s. repeat split; [exact H | now right].
Qed.

(** One negotiation step when its transfer succeeds. *)
Lemma negotiation_step_succeeds (e : control_env) (rt rq v : Z) (g : globals)
    (k : globals -> trace * globals * outcome Z) :
  control_succeeds e = true ->
  negotiation_step e rt rq v g k
  = (let '(tr', g'', r) :=
       k (if device_to_host rt then set_data g (receive (data g) (device_reply e)) else g) in
     ([EvControlSubmit rt rq v USB_SETUP_PACKET_INDEX sizeof_data (data g); EvReleaseEvent]
        ++ tr', g'', r)).
Proof.
  intros H. unfold negotiation_step. rewrite (Control_Transfer_succeeds e _ _ _ _ g H).
  reflexivity.
Qed.

(** One negotiation step when its transfer does not succeed: the rest
    [k] is not run. *)
Lemma negotiation_step_fails (e : control_env) (rt rq v : Z) (g : globals)
    (k : globals -> trace * globals * outcome Z) :
  control_succeeds e = false ->
  exists (tr : trace) (g' : globals),
    negotiation_step e rt rq v g k
    = (tr, g', if null_completion e then Blocked else Returns USBHST_FAILURE)
    /\ In EvDriverDeregister tr
    /\ filter is_streaming tr = []
    /\ (control_requests tr = []
        \/ control_requests tr = [(rt, rq, v, USB_SETUP_PACKET_INDEX, sizeof_data)]).
Proof.
  intros H. unfold negotiation_step.
  destruct (null_completion e) eqn:N.
  - rewrite (Control_Transfer_null e _ _ _ _ g N).
    eexists _, g. repeat split; [right; left; reflexivity | now right].
  - destruct (Control_Transfer_fails e rt rq v USB_SETUP_PACKET_INDEX g H N)
      as (tr & g' & s & E & Hs & Hst & Hc).
    rewrite E. destruct (Z.eqb_spec USBHST_SUCCESS s) as [Es | _]; [congruence |].
    cbn [negb]. exists (tr ++ shutDown ++ [EvFreeDriverData]), g'. repeat split.
    + apply in_or_app. right. left. reflexivity.
    + rewrite filter_app, Hst. reflexivity.
    + unfold control_requests in *. rewrite filter_app. cbn. rewrite app_nil_r. exact Hc.
Qed.

Lemma receive_full (buf bytes : list Z) :
  length bytes = length buf -> receive buf bytes = bytes.
Proof.
  intros H. unfold receive. rewrite skipn_all2 by lia.
  rewrite app_nil_r, <- H. apply firstn_all.
Qed.

(** A shorter answer overwrites the start of the buffer only. *)
Lemma receive_short (buf bytes : list Z) :
  (length bytes <= length buf)%nat ->
  receive buf bytes = bytes ++ skipn (length bytes) buf.
Proof.
  intros H. unfold receive. apply firstn_all2.
  rewrite length_app, length_skipn. lia.
Qed.

Lemma start_transfers_no_control (n : nat) (env : Z -> iso_env) :
  forall i : Z, filter is_control (fst (start_transfers n env i)) = [].
Proof.
  induction n as [| n IH]; intros i; [reflexivity |].
  cbn [start_transfers]. unfold Isochronous_Transfer.
  destruct (iso_calloc_urb (env i)); [| reflexivity].
  destruct (iso_calloc_desc (env i)); [| reflexivity].
  cbn [negb]. destruct (iso_submit_status (env i) =? USBHST_SUCCESS) eqn:E.
  - reflexivity.
  - rewrite Z.eqb_sym in E. rewrite E. reflexivity.
Qed.

Lemma start_streaming_no_control (env : attach_env) :
  filter is_control (fst (start_streaming env)) = [].
Proof.
  unfold start_streaming.
  destruct (negb (int8 (setInterface_status env) =? OK)); [reflexivity |].
  destruct (negb (calloc_setupInfo env)); [reflexivity |].
  destruct (negb (int8 (pipePrepare_status env) =? USBHST_SUCCESS)); [reflexivity |].
  assert (H := start_transfers_no_control (Z.to_nat NO_OF_TRANSFERS) (iso_transfer env) 0).
  destruct (start_transfers _ (iso_transfer env) 0) as [tr r]. cbn [fst] in *.
  rewrite filter_app, H. reflexivity.
Qed.

(** The trace of a negotiation that succeeds, for any number of bytes
    returned by the device: the COMMIT carries data as the GET_CUR/PROBE
    left it. *)
Lemma successful_negotiation_trace (env : attach_env) (g : globals) :
  negotiation_succeeds env = true ->
  let committed := receive (data g) (device_reply (control2 env)) in
  let '(tr, g', r) := Add_Device_Callback env g in
  filter is_control tr
  = [EvControlSubmit USB_DIRECTION_OUT USB_SET_CURRENT UVC_VS_PROBE_CONTROL
                     USB_SETUP_PACKET_INDEX 26 (data g);
     EvControlSubmit USB_DIRECTION_IN USB_GET_CURRENT UVC_VS_PROBE_CONTROL
                     USB_SETUP_PACKET_INDEX 26 (data g);
     EvControlSubmit USB_DIRECTION_OUT USB_SET_CURRENT UVC_VS_COMMIT_CONTROL
                     USB_SETUP_PACKET_INDEX 26 committed]
  /\ data g' = committed
  /\ In (EvSetInterface INTERFACE ALTERNATE_INTERFACE) tr.
Proof.
  intros Hs committed. subst committed. unfold negotiation_succeeds in Hs.
  apply andb_prop in Hs as [Hs H3]. apply andb_prop in Hs as [Hs H2].
  apply andb_prop in Hs as [Hs H1]. apply andb_prop in Hs as [Hc1 Hc2].
  unfold Add_Device_Callback. rewrite Hc1, Hc2. cbn [negb].
  rewrite (negotiation_step_succeeds _ _ _ _ _ _ H1).
  change (device_to_host USB_DIRECTION_OUT) with false. cbv iota.
  rewrite (negotiation_step_succeeds _ _ _ _ _ _ H2).
  change (device_to_host USB_DIRECTION_IN) with true. cbv iota.
  rewrite (negotiation_step_succeeds _ _ _ _ _ _ H3).
  change (device_to_host USB_DIRECTION_OUT) with false. cbv iota.
  assert (Hn := start_streaming_no_control env).
  assert (Hi : In (EvSetInterface INTERFACE ALTERNATE_INTERFACE) (fst (start_streaming env))).
  { unfold start_streaming.
    destruct (negb (int8 (setInterface_status env) =? OK)); [left; reflexivity |].
    destruct (negb (calloc_setupInfo env)); [left; reflexivity |].
    destruct (negb (int8 (pipePrepare_status env) =? USBHST_SUCCESS)); [left; reflexivity |].
    destruct (start_transfers _ (iso_transfer env) 0). left. reflexivity. }
  destruct (start_streaming env) as [trs rs]. cbn [fst] in Hn, Hi.
  cbn [data set_data]. split; [| split; [reflexivity |]].
  - cbn. rewrite Hn. reflexivity.
  - cbn. repeat (first [exact Hi | right]).
Qed.

(** C7 (amended).  When the negotiation succeeds and the device returns
    n <= 26 bytes to the GET_CUR/PROBE, Add_Device_Callback submits
    exactly the three control transfers SET_CUR/PROBE, GET_CUR/PROBE and
    SET_CUR/COMMIT, and the 26-byte payload sent with the COMMIT is the
    shared buffer as the GET_CUR/PROBE left it: the n bytes the device
    returned, followed by bytes n .. 25 of the payload the host had sent
    with the SET_CUR/PROBE.  When the device returned all 26 bytes the
    committed payload is, byte for byte, the payload of the device. *)
Theorem committed_payload_is_buffer_after_probe (env : attach_env) (g : globals) :
  negotiation_succeeds env = true ->
  length (data g) = 26%nat ->
  (length (device_reply (control2 env)) <= 26)%nat ->
  let dev := device_reply (control2 env) in
  let committed := dev ++ skipn (length dev) (data g) in
  let '(tr, g', r) := Add_Device_Callback env g in
  filter is_control tr
  = [EvControlSubmit USB_DIRECTION_OUT USB_SET_CURRENT UVC_VS_PROBE_CONTROL
                     USB_SETUP_PACKET_INDEX 26 (data g);
     EvControlSubmit USB_DIRECTION_IN USB_GET_CURRENT UVC_VS_PROBE_CONTROL
                     USB_SETUP_PACKET_INDEX 26 (data g);
     EvControlSubmit USB_DIRECTION_OUT USB_SET_CURRENT UVC_VS_COMMIT_CONTROL
                     USB_SETUP_PACKET_INDEX 26 committed]
  /\ data g' = committed
  /\ length committed = 26%nat
  /\ (length dev = 26%nat -> committed = dev)
  /\ In (EvSetInterface INTERFACE ALTERNATE_INTERFACE) tr.
Proof.
  intros Hs Hg Hd dev committed. subst dev committed.
  assert (P := successful_negotiation_trace env g Hs). cbv zeta in P.
  assert (Hd' : (length (device_reply (control2 env)) <= length (data g))%nat)
    by (rewrite Hg; exact Hd).
  rewrite (receive_short (data g) (device_reply (control2 env)) Hd') in P.
  destruct (Add_Device_Callback env g) as [[tr g'] r].
  destruct P as (E & D & I).
  split; [exact E | split; [exact D | split; [| split; [| exact I]]]].
  - rewrite length_app, length_skipn, Hg. lia.
  - intros H26. rewrite skipn_all2 by (rewrite H26, Hg; lia). apply app_nil_r.
Qed.

(** The theorem at an attach whose three transfers succeed, the device
    answering with the 26 bytes of [probe_response]: the COMMIT carries
    them all. *)
Lemma committed_payload_is_buffer_after_probe_witness :
  let '(tr, g', r) :=
    Add_Device_Callback (attach_with (control_ok []) (control_ok probe_response) (control_ok []))
                        initial_globals in
  filter is_control tr
  = [EvControlSubmit USB_DIRECTION_OUT USB_SET_CURRENT UVC_VS_PROBE_CONTROL
                     USB_SETUP_PACKET_INDEX 26 (data initial_globals);
     EvControlSubmit USB_DIRECTION_IN USB_GET_CURRENT UVC_VS_PROBE_CONTROL
                     USB_SETUP_PACKET_INDEX 26 (data initial_globals);
     EvControlSubmit USB_DIRECTION_OUT USB_SET_CURRENT UVC_VS_COMMIT_CONTROL
                     USB_SETUP_PACKET_INDEX 26 probe_response]
  /\ data g' = probe_response
  /\ length probe_response = 26%nat
  /\ (length probe_response = 26%nat -> probe_response = probe_response)
  /\ In (EvSetInterface INTERFACE ALTERNATE_INTERFACE) tr.
Proof.
  apply (committed_payload_is_buffer_after_probe
           (attach_with (control_ok []) (control_ok probe_response) (control_ok []))
           initial_globals); [reflexivity | reflexivity | cbn; lia].
Defined.

(** C7 as stated fails.  An attach whose three transfers succeed, the
    device answering the GET_CUR/PROBE with four bytes only (short
    transfers are allowed): the negotiation succeeds, and the COMMIT
    carries those four bytes followed by bytes 4 .. 25 of the host's own
    request, which is not the payload the device returned. *)
Lemma short_probe_response_commits_host_bytes :
  let env := attach_with (control_ok []) (control_ok [9; 8; 7; 6]) (control_ok []) in
  let '(tr, g', r) := Add_Device_Callback env initial_globals in
  negotiation_succeeds env = true
  /\ device_reply (control2 env) = [9; 8; 7; 6]
  /\ In (EvSetInterface INTERFACE ALTERNATE_INTERFACE) tr
  /\ nth 2 (filter is_control tr) EvClose
     = EvControlSubmit USB_DIRECTION_OUT USB_SET_CURRENT UVC_VS_COMMIT_CONTROL
         USB_SETUP_PACKET_INDEX 26
         [9; 8; 7; 6; 42; 44; 10; 0; 0; 0; 0; 0; 0; 0; 0; 0; 0; 0; 0; 0; 0; 0; 0; 0; 0; 0]
  /\ [9; 8; 7; 6; 42; 44; 10; 0; 0; 0; 0; 0; 0; 0; 0; 0; 0; 0; 0; 0; 0; 0; 0; 0; 0; 0]
     <> device_reply (control2 env).
Proof.
  cbv zeta. vm_compute.
  split; [reflexivity | split; [reflexivity | split; [| split; [reflexivity | discriminate]]]].
  repeat (first [left; reflexivity | right]).
Qed.

(** The attach of the witness in full: the host asks for 15 frames per
    second at index 2, the device fills in the payload size, the host
    commits the answer; the first isochronous transfer is submitted and
    Add_Device_Callback waits on its event. *)
Example attach_trace :
  Add_Device_Callback (attach_with (control_ok []) (control_ok probe_response) (control_ok []))
                      initial_globals
  = ([EvGetConfiguration; EvSetConfiguration;
      EvControlSubmit 0x21 0x01 0x100 0x01 26
        [1; 0; 0; 2; 42; 44; 10; 0; 0; 0; 0; 0; 0; 0; 0; 0; 0; 0; 0; 0; 0; 0; 0; 0; 0; 0];
      EvReleaseEvent;
      EvControlSubmit 0xA1 0x81 0x100 0x01 26
        [1; 0; 0; 2; 42; 44; 10; 0; 0; 0; 0; 0; 0; 0; 0; 0; 0; 0; 0; 0; 0; 0; 0; 0; 0; 0];
      EvReleaseEvent;
      EvControlSubmit 0x21 0x01 0x200 0x01 26 probe_response;
      EvReleaseEvent;
      EvSetInterface 1 6; EvPipePrepare 0x81; EvIsoSubmit 0x81],
     set_data initial_globals probe_response,
     Blocked).
Proof. vm_compute. reflexivity. Qed.

(** C8 (amended).  Let the device be configured and let [e], of rank
    [k], be the first of the three negotiation transfers that does not
    succeed.  Then Add_Device_Callback deregisters the driver, issues no
    streaming step, submits the negotiation requests in order and each at
    most once, none after the failed one (which is submitted once, or
    not at all when an allocation failed), and
    - returns USBHST_FAILURE when the transfer reported a status other
      than success;
    - stays blocked in the wait for the completion event when the
      completion callback was handed a null pointer: the callback has
      deregistered the driver and returned USBHST_FAILURE to the host
      stack without releasing the event. *)
Theorem negotiation_failure_aborts (env : attach_env) (g : globals)
    (k : nat) (e : control_env) :
  int8 (getConfiguration_status env) = OK ->
  int8 (setConfiguration_status env) = OK ->
  first_failure env = Some (k, e) ->
  let '(tr, g', r) := Add_Device_Callback env g in
  In EvDriverDeregister tr
  /\ filter is_streaming tr = []
  /\ (control_requests tr = firstn (k - 1) negotiation_requests
      \/ control_requests tr = firstn k negotiation_requests)
  /\ r = (if null_completion e then Blocked else Returns USBHST_FAILURE)
  /\ Control_Completion_Callback None = ([EvDriverDeregister], USBHST_FAILURE).
Proof.
  intros Hc1 Hc2 Hf. unfold Add_Device_Callback. rewrite Hc1, Hc2.
  change (OK =? OK) with true. cbn [negb].
  unfold first_failure in Hf.
  destruct (control_succeeds (control1 env)) eqn:S1; cbn [negb] in Hf.
  2:{ injection Hf as <- <-.
      destruct (negotiation_step_fails (control1 env) USB_DIRECTION_OUT USB_SET_CURRENT
                  UVC_VS_PROBE_CONTROL g
                  (fun g1 =>
                     negotiation_step (control2 env) USB_DIRECTION_IN USB_GET_CURRENT
                       UVC_VS_PROBE_CONTROL g1
                       (fun g2 =>
                          negotiation_step (control3 env) USB_DIRECTION_OUT USB_SET_CURRENT
                            UVC_VS_COMMIT_CONTROL g2
                            (fun g3 => let '(tr, r) := start_streaming env in (tr, g3, r))))
                  S1) as (tr & g' & E & Hd & Hs & Hr).
      rewrite E. repeat split.
      - right. right. exact Hd.
      - cbn. exact Hs.
      - unfold control_requests in *. cbn [app filter is_control map request_of].
        destruct Hr as [Hr | Hr]; rewrite Hr; [left | right]; reflexivity. }
  rewrite (negotiation_step_succeeds _ _ _ _ _ _ S1).
  change (device_to_host USB_DIRECTION_OUT) with false. cbv iota.
  destruct (control_succeeds (control2 env)) eqn:S2; cbn [negb] in Hf.
  2:{ injection Hf as <- <-.
      destruct (negotiation_step_fails (control2 env) USB_DIRECTION_IN USB_GET_CURRENT
                  UVC_VS_PROBE_CONTROL g
                  (fun g2 =>
                     negotiation_step (control3 env) USB_DIRECTION_OUT USB_SET_CURRENT
                       UVC_VS_COMMIT_CONTROL g2
                       (fun g3 => let '(tr, r) := start_streaming env in (tr, g3, r)))
                  S2) as (tr & g' & E & Hd & Hs & Hr).
      rewrite E. repeat split.
      - right. right. right. right. exact Hd.
      - cbn. exact Hs.
      - unfold control_requests in *. cbn [app filter is_control map request_of].
        destruct Hr as [Hr | Hr]; rewrite Hr; [left | right]; reflexivity. }
  rewrite (negotiation_step_succeeds _ _ _ _ _ _ S2).
  change (device_to_host USB_DIRECTION_IN) with true. cbv iota.
  destruct (control_succeeds (control3 env)) eqn:S3; cbn [negb] in Hf; [discriminate |].
  injection Hf as <- <-.
  destruct (negotiation_step_fails (control3 env) USB_DIRECTION_OUT USB_SET_CURRENT
              UVC_VS_COMMIT_CONTROL
              (set_data g (receive (data g) (device_reply (control2 env))))
              (fun g3 => let '(tr, r) := start_streaming env in (tr, g3, r))
              S3) as (tr & g' & E & Hd & Hs & Hr).
  rewrite E. repeat split.
  - right. right. right. right. right. right. exact Hd.
  - cbn. exact Hs.
  - unfold control_requests in *. cbn [app filter is_control map request_of].
    destruct Hr as [Hr | Hr]; rewrite Hr; [left | right]; reflexivity.
Qed.

(** The theorem at an attach whose GET_CUR/PROBE completes with a failure
    status. *)
Lemma negotiation_failure_aborts_witness :
  let '(tr, g', r) :=
    Add_Device_Callback (attach_with (control_ok []) control_stalled (control_ok []))
                        initial_globals in
  In EvDriverDeregister tr
  /\ filter is_streaming tr = []
  /\ (control_requests tr = firstn (2 - 1) negotiation_requests
      \/ control_requests tr = firstn 2 negotiation_requests)
  /\ r = (if null_completion control_stalled then Blocked else Returns USBHST_FAILURE)
  /\ Control_Completion_Callback None = ([EvDriverDeregister], USBHST_FAILURE).
Proof.
  apply (negotiation_failure_aborts
           (attach_with (control_ok []) control_stalled (control_ok []))
           initial_globals 2 control_stalled); reflexivity.
Defined.

(** C8 as stated fails for the null completion object.  When the
    completion callback of the first transfer is handed a null pointer,
    the driver is deregistered and nothing further is issued, but
    Add_Device_Callback does not return: no error reaches its caller. *)
Lemma null_completion_blocks_attach :
  let env := attach_with control_null (control_ok probe_response) (control_ok []) in
  let '(tr, g', r) := Add_Device_Callback env initial_globals in
  first_failure env = Some (1%nat, control_null)
  /\ tr = [EvGetConfiguration; EvSetConfiguration;
           EvControlSubmit 0x21 0x01 0x100 0x01 26 (data initial_globals);
           EvDriverDeregister]
  /\ r = Blocked
  /\ ~ (exists s : Z, r = Returns s).
Proof.
  cbv zeta. vm_compute. repeat split. intros [s H]. discriminate H.
Qed.

(** * Further properties *)

(** ** Format conversion *)

(** X1.  Saturation comes before the narrowing to char.  For any three
    int arguments, in or out of the byte range and also when the 32-bit
    arithmetic wraps, each byte YUV2RGB stores is the int result of its
    channel saturated to 0..255 (255 above, 0 below), never the low
    eight bits of a value outside that range: a luma of 1000 gives
    white, not the byte 121 that narrowing 1145 would leave. *)
Theorem YUV2RGB_saturates_before_narrowing (y u v : Z) :
  let c := int32 (y - 16) in
  let d := int32 (u - 128) in
  let e := int32 (v - 128) in
  let f := int32 (298 * c) in
  let r1 := Z.shiftr (int32 (int32 (f + int32 (409 * e)) + 128)) 8 in
  let g1 := Z.shiftr (int32 (int32 (int32 (f - int32 (100 * d)) - int32 (208 * e)) + 128)) 8 in
  let b1 := Z.shiftr (int32 (int32 (f + int32 (516 * d)) + 128)) 8 in
  YUV2RGB y u v = (clamp r1 0 255, clamp g1 0 255, clamp b1 0 255)
  /\ (255 < r1 -> fst (fst (YUV2RGB y u v)) = 255)
  /\ (r1 < 0 -> fst (fst (YUV2RGB y u v)) = 0)
  /\ YUV2RGB 1000 128 128 = (255, 255, 255)
  /\ store_char (Z.shiftr (298 * (1000 - 16) + 128) 8) = 121
  /\ YUV2RGB (-1000) 128 128 = (0, 0, 0).
Proof.
  cbv zeta.
  assert (E : YUV2RGB y u v
              = (clamp (Z.shiftr (int32 (int32 (int32 (298 * int32 (y - 16))
                                                + int32 (409 * int32 (v - 128))) + 128)) 8)
                       0 255,
                 clamp (Z.shiftr (int32 (int32 (int32 (int32 (298 * int32 (y - 16))
                                                       - int32 (100 * int32 (u - 128)))
                                                - int32 (208 * int32 (v - 128))) + 128)) 8)
                       0 255,
                 clamp (Z.shiftr (int32 (int32 (int32 (298 * int32 (y - 16))
                                                + int32 (516 * int32 (u - 128))) + 128)) 8)
                       0 255)).
  { unfold YUV2RGB. cbv zeta. rewrite <- !saturate_clamp. cbv zeta. reflexivity. }
  split; [exact E |]. rewrite E. cbn [fst]. unfold clamp.
  split; [intros H; lia | split; [intros H; lia |]].
  repeat split; reflexivity.
Qed.

Lemma YUV2RGB_saturates_before_narrowing_witness :
  fst (fst (YUV2RGB 1000 128 128)) = 255 /\ fst (fst (YUV2RGB (-1000) 128 128)) = 0.
Proof.
  split.
  - apply (proj1 (proj2 (YUV2RGB_saturates_before_narrowing 1000 128 128))).
    vm_compute. reflexivity.
  - apply (proj1 (proj2 (proj2 (YUV2RGB_saturates_before_narrowing (-1000) 128 128)))).
    vm_compute. reflexivity.
Defined.

(** X2.  Neutral chroma gives gray: for every luma byte y, the pixel of
    (y, 128, 128) has three equal components, the saturated value of
    (298 (y - 16) + 128) >> 8. *)
Theorem YUV2RGB_neutral_chroma_is_gray (y : Z) :
  0 <= y <= 255 ->
  YUV2RGB y 128 128
  = (clamp (Z.shiftr (298 * (y - 16) + 128) 8) 0 255,
     clamp (Z.shiftr (298 * (y - 16) + 128) 8) 0 255,
     clamp (Z.shiftr (298 * (y - 16) + 128) 8) 0 255).
Proof.
  intros Hy. rewrite YUV2RGB_unfold by lia.
  replace (298 * (y - 16) + 409 * (128 - 128) + 128) with (298 * (y - 16) + 128) by lia.
  replace (298 * (y - 16) - 100 * (128 - 128) - 208 * (128 - 128) + 128)
    with (298 * (y - 16) + 128) by lia.
  replace (298 * (y - 16) + 516 * (128 - 128) + 128) with (298 * (y - 16) + 128) by lia.
  reflexivity.
Qed.

Lemma YUV2RGB_neutral_chroma_is_gray_witness :
  YUV2RGB 100 128 128
  = (clamp (Z.shiftr (298 * (100 - 16) + 128) 8) 0 255,
     clamp (Z.shiftr (298 * (100 - 16) + 128) 8) 0 255,
     clamp (Z.shiftr (298 * (100 - 16) + 128) 8) 0 255).
Proof. apply (YUV2RGB_neutral_chroma_is_gray 100). lia. Defined.

Lemma clamp_shiftr_mono (a b : Z) :
  a <= b -> clamp (Z.shiftr a 8) 0 255 <= clamp (Z.shiftr b 8) 0 255.
Proof.
  intros H. rewrite !Z.shiftr_div_pow2 by lia.
  assert (M : a / 2 ^ 8 <= b / 2 ^ 8) by (apply Z.div_le_mono; lia).
  unfold clamp. lia.
Qed.

(** X3.  The conversion is monotone in luma: for bytes, raising y with
    u and v fixed lowers none of the three components. *)
Theorem YUV2RGB_monotone_in_luma (y y' u v : Z) :
  0 <= y <= y' -> y' <= 255 -> 0 <= u <= 255 -> 0 <= v <= 255 ->
  let '(r, g, b) := YUV2RGB y u v in
  let '(r', g', b') := YUV2RGB y' u v in
  r <= r' /\ g <= g' /\ b <= b'.
Proof.
  intros Hy Hy' Hu Hv.
  rewrite (YUV2RGB_unfold y u v) by lia. rewrite (YUV2RGB_unfold y' u v) by lia.
  repeat split; apply clamp_shiftr_mono; lia.
Qed.

Lemma YUV2RGB_monotone_in_luma_witness :
  let '(r, g, b) := YUV2RGB 50 90 200 in
  let '(r', g', b') := YUV2RGB 180 90 200 in
  r <= r' /\ g <= g' /\ b <= b'.
Proof. apply (YUV2RGB_monotone_in_luma 50 180 90 200); lia. Defined.

(** ** processImage *)

(** X4.  processImage converts quadruple by quadruple: over a buffer of
    bytes, the six bytes it appends to bigBuffer in pass q are the pixel
    of (Y0, U, V) followed by the pixel of (Y1, U, V), read from the
    four input bytes 4q .. 4q+3; it writes 6 bytes per pass. *)
Theorem processImage_converts_each_quadruple (pptr : buffer) (n q : nat) (i : Z) :
  (forall k : Z, 0 <= pptr k <= 255) ->
  (q < n)%nat ->
  firstn 6 (skipn (6 * q) (processImage_loop n pptr i))
  = pixel (pptr (i + 4 * Z.of_nat q)) (pptr (i + 4 * Z.of_nat q + 1))
          (pptr (i + 4 * Z.of_nat q + 3))
    ++ pixel (pptr (i + 4 * Z.of_nat q + 2)) (pptr (i + 4 * Z.of_nat q + 1))
             (pptr (i + 4 * Z.of_nat q + 3))
  /\ length (processImage_loop n pptr i) = (6 * n)%nat.
Proof.
  intros Hb Hq. split; [| apply processImage_loop_length].
  revert i q Hq. induction n as [| n IH]; intros i q Hq; [lia |].
  rewrite (processImage_loop_pass n pptr i Hb). unfold pixel.
  destruct q as [| q].
  - replace (i + 4 * Z.of_nat 0) with i by lia.
    destruct (spec_convert (pptr i) _ _) as [[r g] b].
    destruct (spec_convert (pptr (i + 2)) _ _) as [[r2 g2] b2]. reflexivity.
  - destruct (spec_convert (pptr i) _ _) as [[r g] b].
    destruct (spec_convert (pptr (i + 2)) _ _) as [[r2 g2] b2].
    replace (6 * S q)%nat with (6 + 6 * q)%nat by lia.
    cbn [skipn Nat.add].
    assert (Hq' : (q < n)%nat) by lia.
    specialize (IH (i + 4) q Hq'). unfold pixel in IH. rewrite IH.
    replace (i + 4 + 4 * Z.of_nat q) with (i + 4 * Z.of_nat (S q)) by lia.
    reflexivity.
Qed.

Lemma processImage_converts_each_quadruple_witness :
  firstn 6 (skipn (6 * 1) (processImage_loop 2 (fun k => k mod 256) 0))
  = pixel ((0 + 4 * Z.of_nat 1) mod 256) ((0 + 4 * Z.of_nat 1 + 1) mod 256)
          ((0 + 4 * Z.of_nat 1 + 3) mod 256)
    ++ pixel ((0 + 4 * Z.of_nat 1 + 2) mod 256) ((0 + 4 * Z.of_nat 1 + 1) mod 256)
             ((0 + 4 * Z.of_nat 1 + 3) mod 256)
  /\ length (processImage_loop 2 (fun k => k mod 256) 0) = (6 * 2)%nat.
Proof.
  apply (processImage_converts_each_quadruple (fun k => k mod 256) 2 1 0).
  - intros k. assert (H := Z.mod_pos_bound k 256). lia.
  - lia.
Defined.

(** ** dump_ppm *)

(** What a finished do-while has done: at least one call of write, every
    call asking for the whole payload from its first byte. *)
Lemma dump_ppm_loop_shape (p : list Z) (size : Z) (rets : list Z) :
  forall (total : Z) (file : list Z) (tr : trace) (file' : list Z) (total' : Z) (tr' : trace),
    dump_ppm_loop rets p size total file tr = Some (file', total', tr') ->
    exists rs rest : list Z,
      rets = rs ++ rest /\ rs <> []
      /\ file' = file ++ concat (map (written_bytes p size) rs)
      /\ tr' = tr ++ map (EvWrite size) rs
      /\ size <= total'.
Proof.
  induction rets as [| r rets IH]; intros total file tr file' total' tr' H; [discriminate |].
  cbn [dump_ppm_loop] in H.
  destruct (Z.ltb_spec (uint32 (total + uint32 r)) size) as [Hlt | Hge].
  - destruct (IH _ _ _ _ _ _ H) as (rs & rest & -> & _ & -> & -> & Hs).
    exists (r :: rs), rest. repeat split; try discriminate; try exact Hs.
    + cbn [map concat]. rewrite <- !app_assoc. reflexivity.
    + cbn [map]. rewrite <- app_assoc. reflexivity.
  - injection H as <- <- <-. exists [r], rets. repeat split; try discriminate; try exact Hge.
    cbn. rewrite app_nil_r. reflexivity.
Qed.

(** X5.  Whenever dump_ppm comes to its end, the artifact is what the
    header write left, followed by one prefix of the payload per call of
    write in the loop (each call passes the start of the payload and the
    full size, and there is at least one call); the events are open, the
    writes, then semGive once, then close. *)
Theorem dump_ppm_artifact_shape (rets p : list Z) (size tag : Z)
    (file : list Z) (tr : trace) :
  dump_ppm rets p size tag = Some (file, tr) ->
  exists (r0 : Z) (rs rest : list Z),
    rets = r0 :: rs ++ rest /\ rs <> []
    /\ file = written_bytes new_header 21 r0 ++ concat (map (written_bytes p size) rs)
    /\ tr = [EvOpen tag; EvWrite 21 r0] ++ map (EvWrite size) rs ++ [EvSemGive; EvClose].
Proof.
  unfold dump_ppm. destruct rets as [| r0 rets]; [discriminate |].
  destruct (dump_ppm_loop rets p size 0 _ _) as [[[file' total'] tr'] |] eqn:E; [| discriminate].
  intros H. injection H as <- <-.
  destruct (dump_ppm_loop_shape p size rets _ _ _ _ _ _ E) as (rs & rest & -> & Hn & -> & -> & _).
  exists r0, rs, rest.
  split; [reflexivity | split; [exact Hn | split; [reflexivity |]]].
  rewrite <- app_assoc. reflexivity.
Qed.

Lemma dump_ppm_artifact_shape_witness :
  exists (r0 : Z) (rs rest : list Z),
    [21; 1; 0; 3; 9] = r0 :: rs ++ rest /\ rs <> []
    /\ firstn 21 new_header ++ [5; 5; 6; 7]
       = written_bytes new_header 21 r0 ++ concat (map (written_bytes [5; 6; 7] 3) rs)
    /\ [EvOpen 2; EvWrite 21 21; EvWrite 3 1; EvWrite 3 0; EvWrite 3 3; EvSemGive; EvClose]
       = [EvOpen 2; EvWrite 21 r0] ++ map (EvWrite 3) rs ++ [EvSemGive; EvClose].
Proof.
  apply (dump_ppm_artifact_shape [21; 1; 0; 3; 9] [5; 6; 7] 3 2). reflexivity.
Defined.

Lemma dump_ppm_loop_zero_writes (p : list Z) (size : Z) (n : nat) :
  forall (file : list Z) (tr : trace),
    0 < size -> dump_ppm_loop (repeat 0 n) p size 0 file tr = None.
Proof.
  induction n as [| n IH]; intros file tr Hs; [reflexivity |].
  cbn [repeat dump_ppm_loop]. change (uint32 (0 + uint32 0)) with 0.
  destruct (Z.ltb_spec 0 size); [| lia]. apply IH. exact Hs.
Qed.

(** X6.  The loop of dump_ppm has no retry bound: for a payload that is
    not empty, however many times write returns 0 the loop is still
    running, so semGive is not reached. *)
Theorem dump_ppm_spins_on_zero_writes (p : list Z) (size tag r0 : Z) (n : nat) :
  0 < size ->
  dump_ppm (r0 :: repeat 0 n) p size tag = None.
Proof.
  intros Hs. unfold dump_ppm. rewrite dump_ppm_loop_zero_writes by exact Hs. reflexivity.
Qed.

Lemma dump_ppm_spins_on_zero_writes_witness :
  dump_ppm (21 :: repeat 0 1000) [1; 2; 3; 4] 4 7 = None.
Proof. apply (dump_ppm_spins_on_zero_writes [1; 2; 3; 4] 4 7 21 1000). lia. Defined.

(** X7.  A failed write is counted as 2^32 - 1 bytes: the return value
    -1 is stored in the UINT32 written and added to the UINT32 total.
    As the first write of the body (total 0) it makes total 2^32 - 1 and
    ends the loop at once, with no payload byte in the file and the
    semaphore given all the same.  After some bytes were accepted
    (0 < total) it lowers total by one and the loop goes on with the
    next call, nothing being added to the file. *)
Theorem dump_ppm_failed_write_counts_minus_one
    (p rest file : list Z) (size tag r0 total : Z) (tr : trace) :
  0 <= size < 4294967296 ->
  0 < total <= size ->
  dump_ppm (r0 :: -1 :: rest) p size tag
  = Some (written_bytes new_header 21 r0,
          [EvOpen tag; EvWrite 21 r0; EvWrite size (-1); EvSemGive; EvClose])
  /\ dump_ppm_loop (-1 :: rest) p size total file tr
     = dump_ppm_loop rest p size (total - 1) file (tr ++ [EvWrite size (-1)]).
Proof.
  intros Hs Ht. split.
  - unfold dump_ppm, dump_ppm_loop.
    change (uint32 (0 + uint32 (-1))) with 4294967295.
    destruct (Z.ltb_spec 4294967295 size); [lia |].
    unfold written_bytes at 2. change (0 <=? -1) with false. cbn [andb].
    rewrite app_nil_r. reflexivity.
  - cbn [dump_ppm_loop]. change (uint32 (-1)) with 4294967295.
    assert (E : uint32 (total + 4294967295) = total - 1).
    { unfold uint32. symmetry. apply (Z.mod_unique _ _ 1); lia. }
    rewrite E. destruct (Z.ltb_spec (total - 1) size); [| lia].
    unfold written_bytes. change (0 <=? -1) with false. cbn [andb].
    rewrite app_nil_r. reflexivity.
Qed.

Lemma dump_ppm_failed_write_counts_minus_one_witness :
  dump_ppm (21 :: -1 :: [4]) [1; 2; 3; 4] 4 7
  = Some (written_bytes new_header 21 21,
          [EvOpen 7; EvWrite 21 21; EvWrite 4 (-1); EvSemGive; EvClose])
  /\ dump_ppm_loop (-1 :: [4]) [1; 2; 3; 4] 4 2 [1; 2] [EvWrite 4 2]
     = dump_ppm_loop [4] [1; 2; 3; 4] 4 (2 - 1) [1; 2] ([EvWrite 4 2] ++ [EvWrite 4 (-1)]).
Proof.
  apply (dump_ppm_failed_write_counts_minus_one [1; 2; 3; 4] [4] [1; 2] 4 7 21 2 [EvWrite 4 2]);
    lia.
Defined.

(** A failure after a short write: the loop is still running when the
    answers end with it, and goes on to the next write otherwise. *)
Example dump_ppm_failed_write_after_short_write :
  dump_ppm [21; 2; -1] [1; 2; 3; 4] 4 7 = None
  /\ dump_ppm [21; 2; -1; 4] [1; 2; 3; 4] 4 7
     = Some (firstn 21 new_header ++ [1; 2; 1; 2; 3; 4],
             [EvOpen 7; EvWrite 21 21; EvWrite 4 2; EvWrite 4 (-1); EvWrite 4 4;
              EvSemGive; EvClose]).
Proof. split; vm_compute; reflexivity. Qed.

(** X8.  A frame of 4m bytes whose writes are complete: processImage
    runs m passes, hands dump_ppm the 6m bytes of bigBuffer with the
    size 6m and the current frameCount as tag, and the artifact is the
    21-byte header followed by the converted frame. *)
Theorem processImage_complete_artifact (p : buffer) (m frameCount : Z) :
  0 <= m -> 24 * m < 4294967296 ->
  processImage [21; 6 * m] p (4 * m) frameCount
  = Some (firstn 21 new_header ++ processImage_loop (Z.to_nat m) p 0,
          [EvOpen frameCount; EvWrite 21 21; EvWrite (6 * m) (6 * m); EvSemGive; EvClose]).
Proof.
  intros Hm Hb. unfold processImage, processImage_passes.
  replace ((4 * m + 3) / 4) with m by (Z.div_mod_to_equations; lia).
  replace (uint32 (uint32 (4 * m * 6) / 4)) with (6 * m).
  2:{ rewrite (uint32_small (4 * m * 6)) by lia.
      replace (4 * m * 6 / 4) with (6 * m) by (Z.div_mod_to_equations; lia).
      rewrite uint32_small by lia. reflexivity. }
  apply dump_ppm_full_write; [| lia].
  rewrite processImage_loop_length. lia.
Qed.

Lemma processImage_complete_artifact_witness :
  processImage [21; 6 * 2] (fun k => k) (4 * 2) 499
  = Some (firstn 21 new_header ++ processImage_loop (Z.to_nat 2) (fun k => k) 0,
          [EvOpen 499; EvWrite 21 21; EvWrite (6 * 2) (6 * 2); EvSemGive; EvClose]).
Proof. apply (processImage_complete_artifact (fun k => k) 2 499); lia. Defined.

(** ** The name of the artifact *)

Lemma print_08d_read (v : Z) : 0 <= v < 100000000 -> read_decimal (print_08d v) = v.
Proof.
  intros H. unfold read_decimal, print_08d. cbn [map fold_left].
  change (10 ^ 7) with 10000000. change (10 ^ 6) with 1000000.
  change (10 ^ 5) with 100000. change (10 ^ 4) with 10000.
  change (10 ^ 3) with 1000. change (10 ^ 2) with 100.
  change (10 ^ 1) with 10. change (10 ^ 0) with 1.
  Z.div_mod_to_equations. lia.
Qed.

Lemma digit_not_zero (x : Z) : (48 + x mod 10 =? 0) = false.
Proof. apply Z.eqb_neq. assert (H := Z.mod_pos_bound x 10). lia. Qed.

(** The array after the two calls, for any previous contents of its
    last thirteen bytes. *)
Lemma set_dumpname_array (pre post : list Z) (tag : Z) :
  length pre = 12%nat -> length post = 13%nat ->
  set_dumpname (pre ++ post) tag = pre ++ print_08d (uint16 tag) ++ [46; 112; 112; 109; 0].
Proof.
  intros Hpre Hpost.
  do 12 (destruct pre as [| ? pre]; [discriminate Hpre |]).
  destruct pre; [| discriminate Hpre].
  do 13 (destruct post as [| ? post]; [discriminate Hpost |]).
  destruct post; [| discriminate Hpost].
  unfold set_dumpname, snprintf, strncat, print_08d.
  cbn [map firstn Nat.sub app store_list store_at skipn c_strlen Nat.add].
  rewrite Z.eqb_refl. reflexivity.
Qed.

Lemma set_dumpname_initial (tag : Z) :
  set_dumpname ppm_dumpname tag
  = firstn 12 ppm_dumpname ++ print_08d (uint16 tag) ++ [46; 112; 112; 109; 0].
Proof.
  exact (set_dumpname_array (firstn 12 ppm_dumpname) (skipn 12 ppm_dumpname) tag
           eq_refl eq_refl).
Qed.

Lemma c_string_set_dumpname (tag : Z) :
  c_string (set_dumpname ppm_dumpname tag)
  = firstn 12 ppm_dumpname ++ print_08d (uint16 tag) ++ [46; 112; 112; 109].
Proof.
  rewrite set_dumpname_initial.
  unfold c_string, print_08d.
  cbn [ppm_dumpname firstn map app c_strlen].
  change (47 =? 0) with false. change (116 =? 0) with false. change (103 =? 0) with false.
  change (115 =? 0) with false. change (118 =? 0) with false. change (114 =? 0) with false.
  change (101 =? 0) with false. change (46 =? 0) with false. change (112 =? 0) with false.
  change (109 =? 0) with false. rewrite !digit_not_zero. rewrite Z.eqb_refl.
  cbv iota. cbn [firstn]. reflexivity.
Qed.

(** X9.  The name dump_ppm opens: the string left in ppm_dumpname is
    "/tgtsvr/test", the tag as eight decimal digits, then ".ppm"; the
    array keeps its 25 bytes, and the name does not depend on the name
    built by an earlier call. *)
Theorem dump_name_layout (tag earlier : Z) :
  c_string (set_dumpname ppm_dumpname tag)
  = firstn 12 ppm_dumpname ++ print_08d (uint16 tag) ++ [46; 112; 112; 109]
  /\ length (set_dumpname ppm_dumpname tag) = 25%nat
  /\ set_dumpname (set_dumpname ppm_dumpname earlier) tag = set_dumpname ppm_dumpname tag.
Proof.
  split; [apply c_string_set_dumpname | split].
  - rewrite set_dumpname_initial. reflexivity.
  - rewrite !set_dumpname_initial.
    apply (set_dumpname_array (firstn 12 ppm_dumpname)
             (print_08d (uint16 earlier) ++ [46; 112; 112; 109; 0]) tag); reflexivity.
Qed.

(** X10.  Two tags of the UINT16 range that differ give different
    names: the digits of the name read back as the tag. *)
Theorem dump_name_injective (t1 t2 : Z) :
  0 <= t1 < 65536 -> 0 <= t2 < 65536 ->
  c_string (set_dumpname ppm_dumpname t1) = c_string (set_dumpname ppm_dumpname t2) ->
  t1 = t2
  /\ read_decimal (firstn 8 (skipn 12 (c_string (set_dumpname ppm_dumpname t1)))) = t1.
Proof.
  intros H1 H2 E.
  assert (R : forall t, 0 <= t < 65536 ->
              read_decimal (firstn 8 (skipn 12 (c_string (set_dumpname ppm_dumpname t)))) = t).
  { intros t Ht. rewrite c_string_set_dumpname.
    change (skipn 12 (firstn 12 ppm_dumpname ++ print_08d (uint16 t) ++ [46; 112; 112; 109]))
      with (print_08d (uint16 t) ++ [46; 112; 112; 109]).
    change (firstn 8 (print_08d (uint16 t) ++ [46; 112; 112; 109]))
      with (print_08d (uint16 t)).
    rewrite uint16_small by lia. apply print_08d_read. lia. }
  split; [| apply R; exact H1].
  rewrite <- (R t1 H1), <- (R t2 H2), E. reflexivity.
Qed.

Lemma dump_name_injective_witness :
  499 = 499
  /\ read_decimal (firstn 8 (skipn 12 (c_string (set_dumpname ppm_dumpname 499)))) = 499.
Proof. apply (dump_name_injective 499 499); [lia | lia | reflexivity]. Defined.

(** The name of the first artifact, tag 499. *)
Example dump_name_499 :
  c_string (set_dumpname ppm_dumpname 499)
  = [47; 116; 103; 116; 115; 118; 114; 47; 116; 101; 115; 116;
     48; 48; 48; 48; 48; 52; 57; 57; 46; 112; 112; 109].
Proof. vm_compute. reflexivity. Qed.

(** ** Reassembly as lists of bytes *)

Lemma nth_map_seq (f : nat -> Z) (m j : nat) (d : Z) :
  (j < m)%nat -> nth j (map f (seq 0 m)) d = f j.
Proof.
  intros H. rewrite (nth_indep _ d (f O)) by (rewrite length_map, length_seq; exact H).
  rewrite map_nth, seq_nth by exact H. reflexivity.
Qed.

Lemma nth_packet_payload (pUrb : USBHST_URB) (i : Z) (j : nat) :
  (j < length (packet_payload pUrb i))%nat ->
  nth j (packet_payload pUrb i) 0
  = pTransferBuffer pUrb (i * ISOCHRONOUS_BUFFER_SIZE + HEADER_LENGTH + Z.of_nat j).
Proof.
  unfold packet_payload. rewrite length_map, length_seq. intros H.
  rewrite nth_map_seq by exact H. reflexivity.
Qed.

Lemma length_packet_payload (pUrb : USBHST_URB) (i : Z) :
  HEADER_LENGTH < uLength (pTransferSpecificData pUrb i) ->
  Z.of_nat (length (packet_payload pUrb i))
  = uLength (pTransferSpecificData pUrb i) - HEADER_LENGTH.
Proof.
  intros H. unfold packet_payload. rewrite length_map, length_seq. lia.
Qed.

(** Appending a payload at the offset. *)
Lemma holds_frame_append (g : globals) (frame : list Z) (pUrb : USBHST_URB) (i : Z) :
  holds_frame g frame ->
  HEADER_LENGTH < uLength (pTransferSpecificData pUrb i) ->
  forall g' : globals,
    image_buffer g' = memcpy (image_buffer g) (offset g) (pTransferBuffer pUrb)
                        (i * ISOCHRONOUS_BUFFER_SIZE + HEADER_LENGTH)
                        (uLength (pTransferSpecificData pUrb i) - HEADER_LENGTH) ->
    offset g' = offset g + (uLength (pTransferSpecificData pUrb i) - HEADER_LENGTH) ->
    holds_frame g' (frame ++ packet_payload pUrb i).
Proof.
  intros [Ho Hb] Hlen g' Ei Eo. split.
  - rewrite Eo, Ho, length_app, Nat2Z.inj_add, (length_packet_payload pUrb i Hlen).
    reflexivity.
  - intros k Hk. rewrite Ei. unfold memcpy.
    rewrite length_app in Hk.
    assert (Hp := length_packet_payload pUrb i Hlen).
    destruct (Nat.lt_ge_cases k (length frame)) as [Hin | Hout].
    + destruct (Z.leb_spec (offset g) (Z.of_nat k)); [lia |].
      cbn [andb]. rewrite app_nth1 by exact Hin. apply Hb. exact Hin.
    + destruct (Z.leb_spec (offset g) (Z.of_nat k)); [| lia].
      destruct (Z.ltb_spec (Z.of_nat k)
                  (offset g + (uLength (pTransferSpecificData pUrb i) - HEADER_LENGTH)));
        [| lia].
      cbn [andb]. rewrite app_nth2 by exact Hout.
      rewrite nth_packet_payload by lia.
      f_equal. lia.
Qed.

Lemma iso_packet_loop_reassembles (n : nat) (spawn : Z -> bool) (pUrb : USBHST_URB) :
  forall (i : Z) (g : globals) (frame : list Z),
    holds_frame g frame ->
    frames_fit n pUrb i (mem_h g) (sizeof_image_buffer - offset g) ->
    match iso_packet_loop n spawn pUrb i g with
    | (Next g', _) => holds_frame g' (reassemble n pUrb i (mem_h g) frame)
    | (ReturnError _, _) => True
    end.
Proof.
  induction n as [| n IH]; intros i g frame Hh Hfit; [exact Hh |].
  cbn [iso_packet_loop frames_fit reassemble] in *.
  destruct (iso_packet_cases pUrb i g) as [Hs | [[Hl Hf] | [Hl Hf]]].
  - rewrite (iso_packet_skip (spawn i) pUrb i g Hs).
    rewrite Hs, Z.eqb_refl in *.
    specialize (IH (i + 1) g frame Hh Hfit).
    destruct (iso_packet_loop n spawn pUrb (i + 1) g) as [[g' | g'] tr]; exact IH.
  - rewrite (iso_packet_continue (spawn i) pUrb i g Hl Hf).
    destruct (Z.eqb_spec (uLength (pTransferSpecificData pUrb i)) HEADER_LENGTH);
      [contradiction |].
    destruct (Z.eqb_spec (mem_h g) (packet_fid pUrb i)); [| contradiction].
    destruct Hfit as (Hlen & Hroom & Hrest).
    rewrite (copy_length_exact _ Hlen).
    set (p := uLength (pTransferSpecificData pUrb i) - HEADER_LENGTH) in *.
    assert (Ho : 0 <= offset g) by (destruct Hh as [Ho _]; lia).
    assert (Eo : uint32 (offset g + p) = offset g + p).
    { apply uint32_small. unfold sizeof_image_buffer, HRES, VRES in *. lia. }
    rewrite Eo.
    match goal with |- context [iso_packet_loop n spawn pUrb (i + 1) ?g1] =>
      specialize (IH (i + 1) g1 (frame ++ packet_payload pUrb i));
      destruct (iso_packet_loop n spawn pUrb (i + 1) g1) as [[g' | g'] tr]
    end; [| exact I].
    cbn [offset mem_h] in IH. apply IH.
    + apply (holds_frame_append g frame pUrb i Hh (proj1 Hlen)); reflexivity.
    + replace (sizeof_image_buffer - (offset g + p))
        with (sizeof_image_buffer - offset g - p) by lia. exact Hrest.
  - destruct (spawn i).
    2:{ rewrite (iso_packet_boundary_failed pUrb i g Hl Hf). exact I. }
    rewrite (iso_packet_boundary pUrb i g Hl Hf).
    destruct (Z.eqb_spec (uLength (pTransferSpecificData pUrb i)) HEADER_LENGTH);
      [contradiction |].
    destruct (Z.eqb_spec (mem_h g) (packet_fid pUrb i)); [contradiction |].
    destruct Hfit as (Hlen & Hrest).
    rewrite (copy_length_exact _ Hlen).
    set (p := uLength (pTransferSpecificData pUrb i) - HEADER_LENGTH) in *.
    assert (Eo : uint32 (0 + p) = p).
    { apply uint32_small.
      unfold ISOCHRONOUS_BUFFER_SIZE, HEADER_LENGTH in *. lia. }
    rewrite Eo.
    match goal with |- context [iso_packet_loop n spawn pUrb (i + 1) ?g1] =>
      specialize (IH (i + 1) g1 (packet_payload pUrb i));
      destruct (iso_packet_loop n spawn pUrb (i + 1) g1) as [[g' | g'] tr]
    end; [| exact I].
    cbn [offset mem_h] in IH. apply IH; [| exact Hrest].
    apply (holds_frame_append
             (set_offset (set_image_buffer g (memset (image_buffer g) 0 sizeof_image_buffer)) 0)
             [] pUrb i); [| exact (proj1 Hlen) | reflexivity | reflexivity].
    split; [reflexivity | intros k Hk; inversion Hk].
Qed.

(** X11.  Reassembly, byte for byte.  If image_buffer holds the bytes
    [frame] received so far, the packets of a completed transfer keep
    every frame within the buffer, and the callback returns
    USBHST_SUCCESS (no taskSpawn failed; a failed one makes it return
    ERROR with the rest of the transfer unprocessed), then after the
    callback image_buffer holds, from index 0, the frame the list-level
    reassembly gives: the payloads of the packets that are not
    header-only, in packet order, appended to [frame] while the FID bit
    is unchanged and started anew at each FID toggle; offset is the
    length of that frame. *)
Theorem callback_reassembles_payloads
    (spawn : Z -> bool) (pUrb : USBHST_URB) (g : globals) (frame : list Z) :
  holds_frame g frame ->
  frames_fit (Z.to_nat NUMBER_OF_ISOCHRONOUS_PACKETS) pUrb 0 (mem_h g)
             (sizeof_image_buffer - offset g) ->
  res_status (Isochronous_Completion_Callback spawn pUrb g) = USBHST_SUCCESS ->
  holds_frame (res_globals (Isochronous_Completion_Callback spawn pUrb g))
              (reassemble (Z.to_nat NUMBER_OF_ISOCHRONOUS_PACKETS) pUrb 0 (mem_h g) frame).
Proof.
  intros Hh Hfit. unfold Isochronous_Completion_Callback.
  assert (P := iso_packet_loop_reassembles _ spawn pUrb 0 g frame Hh Hfit).
  destruct (iso_packet_loop _ spawn pUrb 0 g) as [[g1 | g1] tr].
  - intros _. destruct (aborted g1 =? 0); exact P.
  - cbn [res_status]. intros H. discriminate H.
Qed.

(** The theorem twice: at the first completion, twelve full packets of
    the frame with FID 0 from the empty frame, and then, from the state
    and the frame that leaves, at a completion that starts the frame with
    FID 1, the taskSpawn of the handoff succeeding. *)
Lemma callback_reassembles_payloads_witness :
  let g1 := res_globals (Isochronous_Completion_Callback spawn_always urb_full_frame0
                           initial_globals) in
  let frame1 := reassemble (Z.to_nat NUMBER_OF_ISOCHRONOUS_PACKETS) urb_full_frame0 0
                           (mem_h initial_globals) [] in
  holds_frame g1 frame1
  /\ holds_frame (res_globals (Isochronous_Completion_Callback
                                 (fun i => i =? 0) urb_new_frame1 g1))
                 (reassemble (Z.to_nat NUMBER_OF_ISOCHRONOUS_PACKETS) urb_new_frame1 0
                             (mem_h g1) frame1).
Proof.
  cbv zeta.
  assert (H1 : holds_frame
                 (res_globals (Isochronous_Completion_Callback spawn_always urb_full_frame0
                                 initial_globals))
                 (reassemble (Z.to_nat NUMBER_OF_ISOCHRONOUS_PACKETS) urb_full_frame0 0
                             (mem_h initial_globals) [])).
  { apply (callback_reassembles_payloads spawn_always urb_full_frame0 initial_globals []).
    - split; [reflexivity | intros k Hk; inversion Hk].
    - vm_compute. intuition discriminate.
    - vm_compute. reflexivity. }
  split; [exact H1 |].
  apply (callback_reassembles_payloads (fun i => i =? 0) urb_new_frame1 _ _ H1).
  - vm_compute. intuition discriminate.
  - vm_compute. reflexivity.
Defined.

(** With the same packets and a failing taskSpawn the callback returns
    ERROR at the toggle: offset is 0 and the new frame is not copied. *)
Example failed_spawn_leaves_frame_unassembled :
  let r := Isochronous_Completion_Callback (fun _ => false) urb_new_frame1 globals_frame0 in
  res_status r = ERROR /\ offset (res_globals r) = 0
  /\ Z.of_nat (length (reassemble 12 urb_new_frame1 0 (mem_h globals_frame0)
                                  (reassemble 12 urb_full_frame0 0 0 []))) = 1864.
Proof. cbv zeta. repeat split; vm_compute; reflexivity. Qed.

(** The frame of the witness: 11184 bytes 0x55. *)
Example reassemble_full_frame0 :
  Z.of_nat (length (reassemble 12 urb_full_frame0 0 0 [])) = 11184
  /\ forallb (Z.eqb 0x55) (reassemble 12 urb_full_frame0 0 0 []) = true.
Proof. split; vm_compute; reflexivity. Qed.

(** ** Reads of the transfer buffer *)

Lemma iso_packet_loop_reads_in_bounds (n : nat) (spawn : Z -> bool) (pUrb : USBHST_URB) :
  forall (i : Z) (g : globals),
    0 <= i -> i + Z.of_nat n <= NUMBER_OF_ISOCHRONOUS_PACKETS ->
    (forall j : Z, i <= j < i + Z.of_nat n ->
       HEADER_LENGTH <= uLength (pTransferSpecificData pUrb j) <= ISOCHRONOUS_BUFFER_SIZE) ->
    Forall copy_reads_transfer_buffer (snd (iso_packet_loop n spawn pUrb i g)).
Proof.
  induction n as [| n IH]; intros i g Hi Hn Hlen; [constructor |].
  cbn [iso_packet_loop].
  assert (Hd := Hlen i ltac:(lia)).
  assert (Hcopy : copy_reads_transfer_buffer
                    (EvMemcpy (offset g) (i * ISOCHRONOUS_BUFFER_SIZE + HEADER_LENGTH)
                              (copy_length (pTransferSpecificData pUrb i)))
                  /\ forall dst, copy_reads_transfer_buffer
                    (EvMemcpy dst (i * ISOCHRONOUS_BUFFER_SIZE + HEADER_LENGTH)
                              (copy_length (pTransferSpecificData pUrb i)))).
  { assert (E : copy_length (pTransferSpecificData pUrb i)
                = uLength (pTransferSpecificData pUrb i) - HEADER_LENGTH).
    { unfold copy_length. apply uint32_small.
      unfold HEADER_LENGTH, ISOCHRONOUS_BUFFER_SIZE in *. lia. }
    unfold copy_reads_transfer_buffer. rewrite E.
    unfold HEADER_LENGTH, ISOCHRONOUS_BUFFER_SIZE, ISOCHRONOUS_TRANSFER_LENGTH,
      NUMBER_OF_ISOCHRONOUS_PACKETS in *.
    split; [| intros dst]; exists i; lia. }
  destruct Hcopy as [_ Hcopy].
  assert (Hrest : forall g1, Forall copy_reads_transfer_buffer
                               (snd (iso_packet_loop n spawn pUrb (i + 1) g1))).
  { intros g1. apply IH; [lia | lia |]. intros j Hj. apply Hlen. lia. }
  destruct (iso_packet_cases pUrb i g) as [Hs | [[Hl Hf] | [Hl Hf]]].
  - rewrite (iso_packet_skip (spawn i) pUrb i g Hs).
    specialize (Hrest g). destruct (iso_packet_loop n spawn pUrb (i + 1) g). exact Hrest.
  - rewrite (iso_packet_continue (spawn i) pUrb i g Hl Hf).
    match goal with |- context [iso_packet_loop n spawn pUrb (i + 1) ?g1] =>
      specialize (Hrest g1); destruct (iso_packet_loop n spawn pUrb (i + 1) g1) as [r tr]
    end.
    cbn [snd] in *. apply Forall_app. split; [| exact Hrest].
    apply Forall_app. split.
    + destruct (first g =? 1); [constructor; [exact I | constructor] | constructor].
    + constructor; [apply Hcopy | constructor].
  - destruct (spawn i).
    + rewrite (iso_packet_boundary pUrb i g Hl Hf).
      match goal with |- context [iso_packet_loop n spawn pUrb (i + 1) ?g1] =>
        specialize (Hrest g1); destruct (iso_packet_loop n spawn pUrb (i + 1) g1) as [r tr]
      end.
      cbn [snd] in *. apply Forall_app. split; [| exact Hrest].
      constructor; [exact I |]. constructor; [exact I |].
      constructor; [apply Hcopy | constructor].
    + rewrite (iso_packet_boundary_failed pUrb i g Hl Hf). cbn [snd].
      constructor; [exact I |]. constructor; [exact I |].
      constructor; [exact I | constructor].
Qed.

(** X12.  When the host stack reports, for each of the twelve packets,
    a length between the header length and the slot size, every memcpy
    of the callback reads the payload area of a single packet: it starts
    right after that packet's 12-byte header and ends within the packet's
    944-byte slot, inside the transfer buffer of 11328 bytes. *)
Theorem callback_reads_inside_transfer_buffer
    (spawn : Z -> bool) (pUrb : USBHST_URB) (g : globals) :
  (forall j : Z, 0 <= j < NUMBER_OF_ISOCHRONOUS_PACKETS ->
     HEADER_LENGTH <= uLength (pTransferSpecificData pUrb j) <= ISOCHRONOUS_BUFFER_SIZE) ->
  Forall copy_reads_transfer_buffer
         (res_trace (Isochronous_Completion_Callback spawn pUrb g)).
Proof.
  intros Hlen. unfold Isochronous_Completion_Callback.
  assert (P := iso_packet_loop_reads_in_bounds
                 (Z.to_nat NUMBER_OF_ISOCHRONOUS_PACKETS) spawn pUrb 0 g
                 ltac:(lia) ltac:(reflexivity) Hlen).
  destruct (iso_packet_loop _ spawn pUrb 0 g) as [[g1 | g1] tr]; cbn [snd] in P.
  - destruct (aborted g1 =? 0); cbn [res_trace]; [| exact P].
    apply Forall_app. split; [exact P | constructor; [exact I | constructor]].
  - exact P.
Qed.

Lemma callback_reads_inside_transfer_buffer_witness :
  Forall copy_reads_transfer_buffer
         (res_trace (Isochronous_Completion_Callback spawn_always urb_new_frame1
                       initial_globals)).
Proof.
  apply (callback_reads_inside_transfer_buffer spawn_always urb_new_frame1 initial_globals).
  intros j Hj. unfold urb_new_frame1, make_urb. cbn [pTransferSpecificData uLength].
  unfold HEADER_LENGTH, ISOCHRONOUS_BUFFER_SIZE. destruct (j <? 2); lia.
Defined.

(** ** The semaphore *)

Lemma iso_packet_sem (spawn_ok : bool) (pUrb : USBHST_URB) (i : Z) (g : globals) :
  let '(r, tr) := iso_packet spawn_ok pUrb i g in
  (length (filter is_semTake tr) + take_pending (flow_globals r)
   <= length (filter is_spawn_ok tr) + take_pending g)%nat.
Proof.
  destruct (iso_packet_cases pUrb i g) as [Hs | [[Hl Hf] | [Hl Hf]]].
  - rewrite (iso_packet_skip spawn_ok pUrb i g Hs). cbn. lia.
  - rewrite (iso_packet_continue spawn_ok pUrb i g Hl Hf).
    unfold take_pending. cbn [flow_globals first].
    destruct (Z.eqb_spec (first g) 1) as [E | E].
    + cbn. lia.
    + destruct (Z.eqb_spec (first g) 1); [contradiction |]. cbn. lia.
  - destruct spawn_ok.
    + rewrite (iso_packet_boundary pUrb i g Hl Hf). unfold take_pending. cbn.
      destruct (first g =? 1); lia.
    + rewrite (iso_packet_boundary_failed pUrb i g Hl Hf). unfold take_pending. cbn. lia.
Qed.

Lemma iso_packet_loop_sem (n : nat) (spawn : Z -> bool) (pUrb : USBHST_URB) :
  forall (i : Z) (g : globals),
    let '(r, tr) := iso_packet_loop n spawn pUrb i g in
    (length (filter is_semTake tr) + take_pending (flow_globals r)
     <= length (filter is_spawn_ok tr) + take_pending g)%nat.
Proof.
  induction n as [| n IH]; intros i g; [cbn; lia |].
  cbn [iso_packet_loop].
  assert (P := iso_packet_sem (spawn i) pUrb i g).
  destruct (iso_packet (spawn i) pUrb i g) as [[g1 | g1] tr1]; cbn [flow_globals] in P.
  - specialize (IH (i + 1) g1).
    destruct (iso_packet_loop n spawn pUrb (i + 1) g1) as [r tr2].
    rewrite !filter_app, !length_app. lia.
  - exact P.
Qed.

(** X13.  The callback never takes the semaphore more often than it has
    handed frames off: over any completion, the calls of semTake, plus
    one if a take is still pending at the end, are at most the
    successful calls of taskSpawn, plus one if a take was pending at the
    start.  Each spawned task gives the semaphore once, and the
    semaphore is created full while the first take is pending. *)
Theorem semTake_bounded_by_handoffs (spawn : Z -> bool) (pUrb : USBHST_URB) (g : globals) :
  let r := Isochronous_Completion_Callback spawn pUrb g in
  (length (filter is_semTake (res_trace r)) + take_pending (res_globals r)
   <= length (filter is_spawn_ok (res_trace r)) + take_pending g)%nat.
Proof.
  cbv zeta. unfold Isochronous_Completion_Callback.
  assert (P := iso_packet_loop_sem (Z.to_nat NUMBER_OF_ISOCHRONOUS_PACKETS) spawn pUrb 0 g).
  destruct (iso_packet_loop _ spawn pUrb 0 g) as [[g1 | g1] tr]; cbn [flow_globals] in P.
  - destruct (aborted g1 =? 0); cbn [res_trace res_globals]; [| exact P].
    rewrite !filter_app, !length_app. cbn. lia.
  - exact P.
Qed.

(** ** Quota and abort over whole completions *)

Lemma callback_boundaries (spawn : Z -> bool) (pUrb : USBHST_URB) (g : globals) :
  boundaries (res_trace (Isochronous_Completion_Callback spawn pUrb g))
  = boundaries (snd (iso_packet_loop (Z.to_nat NUMBER_OF_ISOCHRONOUS_PACKETS) spawn pUrb 0 g))
  /\ res_globals (Isochronous_Completion_Callback spawn pUrb g)
     = flow_globals (fst (iso_packet_loop (Z.to_nat NUMBER_OF_ISOCHRONOUS_PACKETS)
                            spawn pUrb 0 g)).
Proof.
  unfold Isochronous_Completion_Callback.
  destruct (iso_packet_loop _ spawn pUrb 0 g) as [[g1 | g1] tr]; cbn [fst snd flow_globals].
  - destruct (aborted g1 =? 0); cbn [res_trace res_globals]; split; try reflexivity.
    rewrite boundaries_app. cbn. lia.
  - split; reflexivity.
Qed.

(** X14.  The frame quota counts frame boundaries exactly, up to its
    exhaustion: if a completion holds at most frameCount frame
    boundaries, it leaves frameCount lowered by their number, and it
    leaves the abort flag set exactly when a boundary brought the quota
    to zero (otherwise the flag is as it was). *)
Theorem quota_counts_frame_boundaries (spawn : Z -> bool) (pUrb : USBHST_URB) (g : globals) :
  0 <= frameCount g < 65536 ->
  let r := Isochronous_Completion_Callback spawn pUrb g in
  Z.of_nat (boundaries (res_trace r)) <= frameCount g ->
  frameCount (res_globals r) = frameCount g - Z.of_nat (boundaries (res_trace r))
  /\ aborted (res_globals r)
     = (if (0 <? Z.of_nat (boundaries (res_trace r))) && (frameCount (res_globals r) =? 0)
        then 1 else aborted g).
Proof.
  intros Hfc. cbv zeta.
  destruct (callback_boundaries spawn pUrb g) as [Eb Eg]. rewrite Eb, Eg.
  assert (P := quota_counts_boundaries (Z.to_nat NUMBER_OF_ISOCHRONOUS_PACKETS)
                 spawn pUrb 0 g Hfc).
  destruct (iso_packet_loop _ spawn pUrb 0 g) as [r tr]. cbn [fst snd]. exact P.
Qed.

(** The theorem from the initial quota of 500, at a completion with
    twelve frame boundaries. *)
Lemma quota_counts_frame_boundaries_witness :
  let r := Isochronous_Completion_Callback spawn_always urb_toggling initial_globals in
  frameCount (res_globals r)
  = frameCount initial_globals - Z.of_nat (boundaries (res_trace r))
  /\ aborted (res_globals r)
     = (if (0 <? Z.of_nat (boundaries (res_trace r))) && (frameCount (res_globals r) =? 0)
        then 1 else aborted initial_globals).
Proof.
  apply (quota_counts_frame_boundaries spawn_always urb_toggling initial_globals).
  - vm_compute. split; [discriminate | reflexivity].
  - vm_compute. discriminate.
Defined.

(** X15.  Abort is final: from a state with the abort flag set, no
    sequence of further completions clears the flag or resubmits a
    transfer. *)
Theorem abort_is_final (cs : list ((Z -> bool) * USBHST_URB)) (g : globals) :
  aborted g = 1 ->
  aborted (fst (completions cs g)) = 1
  /\ filter is_resubmit (snd (completions cs g)) = [].
Proof.
  revert g. induction cs as [| [spawn pUrb] cs IH]; intros g Ha; [split; [exact Ha | reflexivity] |].
  cbn [completions].
  destruct (abort_blocks_resubmission spawn pUrb g) as [A1 A2]. cbv zeta in A1, A2.
  specialize (A1 Ha).
  assert (F : filter is_resubmit
                (res_trace (Isochronous_Completion_Callback spawn pUrb g)) = [])
    by (apply A2; rewrite A1; discriminate).
  destruct (res_status (Isochronous_Completion_Callback spawn pUrb g) =? USBHST_SUCCESS).
  - destruct (IH _ A1) as [I1 I2].
    destruct (completions cs (res_globals (Isochronous_Completion_Callback spawn pUrb g)))
      as [g' tr]. cbn [fst snd] in *.
    split; [exact I1 | rewrite filter_app, F, I2; reflexivity].
  - cbn [fst snd]. split; [exact A1 | exact F].
Qed.

(** The theorem from the state in which the quota has just been spent. *)
Lemma abort_is_final_witness :
  aborted (fst (completions [(spawn_always, urb_toggling); (spawn_always, urb_full_frame0)]
                            globals_quota_spent)) = 1
  /\ filter is_resubmit
       (snd (completions [(spawn_always, urb_toggling); (spawn_always, urb_full_frame0)]
                         globals_quota_spent)) = [].
Proof.
  apply (abort_is_final [(spawn_always, urb_toggling); (spawn_always, urb_full_frame0)]
                        globals_quota_spent).
  vm_compute. reflexivity.
Defined.

(** ** A failing taskSpawn *)

Lemma iso_packet_loop_spawn_failure (n : nat) (spawn : Z -> bool) (pUrb : USBHST_URB) :
  forall (i : Z) (g : globals),
    match iso_packet_loop n spawn pUrb i g with
    | (Next _, tr) =>
        filter is_deregister tr = [] /\ ~ In (EvTaskSpawn false) tr
    | (ReturnError g', tr) =>
        exists tr0 : trace,
          tr = tr0 ++ [EvTaskSpawn false; EvLogMsg; EvDriverDeregister]
          /\ filter is_deregister tr0 = [] /\ ~ In (EvTaskSpawn false) tr0
          /\ offset g' = 0
    end.
Proof.
  induction n as [| n IH]; intros i g; [cbn; split; [reflexivity | intros []] |].
  cbn [iso_packet_loop].
  destruct (iso_packet_cases pUrb i g) as [Hs | [[Hl Hf] | [Hl Hf]]].
  - rewrite (iso_packet_skip (spawn i) pUrb i g Hs).
    specialize (IH (i + 1) g).
    destruct (iso_packet_loop n spawn pUrb (i + 1) g) as [[g' | g'] tr]; exact IH.
  - rewrite (iso_packet_continue (spawn i) pUrb i g Hl Hf).
    match goal with |- context [iso_packet_loop n spawn pUrb (i + 1) ?g1] =>
      specialize (IH (i + 1) g1); destruct (iso_packet_loop n spawn pUrb (i + 1) g1) as [[g' | g'] tr]
    end.
    + destruct IH as [D N]. split.
      * rewrite filter_app, D. destruct (first g =? 1); reflexivity.
      * intros H. apply in_app_or in H as [H | H]; [| exact (N H)].
        destruct (first g =? 1); cbn in H; intuition discriminate.
    + destruct IH as (tr0 & -> & D & N & O).
      eexists. split; [rewrite app_assoc; reflexivity | split; [| split; [| exact O]]].
      * rewrite filter_app, D. destruct (first g =? 1); reflexivity.
      * intros H. apply in_app_or in H as [H | H]; [| exact (N H)].
        destruct (first g =? 1); cbn in H; intuition discriminate.
  - destruct (spawn i).
    + rewrite (iso_packet_boundary pUrb i g Hl Hf).
      match goal with |- context [iso_packet_loop n spawn pUrb (i + 1) ?g1] =>
        specialize (IH (i + 1) g1);
        destruct (iso_packet_loop n spawn pUrb (i + 1) g1) as [[g' | g'] tr]
      end.
      * destruct IH as [D N]. split.
        -- rewrite filter_app, D. reflexivity.
        -- intros H. apply in_app_or in H as [H | H]; [| exact (N H)].
           cbn in H. intuition discriminate.
      * destruct IH as (tr0 & -> & D & N & O).
        eexists. split; [rewrite app_assoc; reflexivity | split; [| split; [| exact O]]].
        -- rewrite filter_app, D. reflexivity.
        -- intros H. apply in_app_or in H as [H | H]; [| exact (N H)].
           cbn in H. intuition discriminate.
    + rewrite (iso_packet_boundary_failed pUrb i g Hl Hf).
      exists []. split; [reflexivity | split; [reflexivity | split; [intros [] | reflexivity]]].
Qed.

(** X16.  The callback fails only through taskSpawn.  It returns
    USBHST_SUCCESS or ERROR.  When it returns ERROR, its last three
    events are the failed taskSpawn, the log message and the
    deregistration of the driver, with no deregistration before; the
    transfer is not resubmitted, its descriptors are left as the stack
    wrote them, and offset is 0.  When it returns USBHST_SUCCESS, no
    taskSpawn failed and the driver was not deregistered. *)
Theorem callback_fails_only_through_taskSpawn
    (spawn : Z -> bool) (pUrb : USBHST_URB) (g : globals) :
  let r := Isochronous_Completion_Callback spawn pUrb g in
  (res_status r = USBHST_SUCCESS
   /\ filter is_deregister (res_trace r) = []
   /\ ~ In (EvTaskSpawn false) (res_trace r))
  \/ (res_status r = ERROR
      /\ (exists tr0 : trace,
            res_trace r = tr0 ++ [EvTaskSpawn false; EvLogMsg; EvDriverDeregister]
            /\ filter is_deregister tr0 = [])
      /\ filter is_resubmit (res_trace r) = []
      /\ res_urb r = pUrb
      /\ offset (res_globals r) = 0).
Proof.
  cbv zeta. unfold Isochronous_Completion_Callback.
  assert (P := iso_packet_loop_spawn_failure
                 (Z.to_nat NUMBER_OF_ISOCHRONOUS_PACKETS) spawn pUrb 0 g).
  assert (Q := iso_packet_loop_abort (Z.to_nat NUMBER_OF_ISOCHRONOUS_PACKETS) spawn pUrb 0 g).
  destruct (iso_packet_loop _ spawn pUrb 0 g) as [[g1 | g1] tr].
  - left. destruct P as [D N].
    destruct (aborted g1 =? 0); cbn [res_status res_trace]; split; try reflexivity; split;
      try assumption.
    + rewrite filter_app, D. reflexivity.
    + intros H. apply in_app_or in H as [H | H]; [exact (N H) |].
      cbn in H. intuition discriminate.
  - right. destruct P as (tr0 & E & D & N & O). destruct Q as [_ Q].
    cbn [res_status res_trace res_urb res_globals].
    split; [reflexivity | split; [exists tr0; split; assumption |]].
    split; [exact Q | split; [reflexivity | exact O]].
Qed.

(** ** Descriptors *)

(** X17.  After a completion that returns USBHST_SUCCESS, each of the
    twelve descriptors has the length and the offset Isochronous_Transfer
    gave it at first (slot size 944, offset 944 i), whatever the stack
    had written there; the status field of the descriptors, the
    descriptors beyond the twelve and the transfer buffer are not
    touched. *)
Theorem descriptors_reset_after_completion
    (spawn : Z -> bool) (pUrb : USBHST_URB) (g : globals) :
  let r := Isochronous_Completion_Callback spawn pUrb g in
  res_status r = USBHST_SUCCESS ->
  (forall i : Z, 0 <= i < NUMBER_OF_ISOCHRONOUS_PACKETS ->
     uLength (pTransferSpecificData (res_urb r) i) = uLength (fresh_descriptors i)
     /\ uOffset (pTransferSpecificData (res_urb r) i) = uOffset (fresh_descriptors i)
     /\ uOffset (pTransferSpecificData (res_urb r) i) = i * ISOCHRONOUS_BUFFER_SIZE
     /\ nStatus (pTransferSpecificData (res_urb r) i) = nStatus (pTransferSpecificData pUrb i))
  /\ (forall i : Z, ~ 0 <= i < NUMBER_OF_ISOCHRONOUS_PACKETS ->
        pTransferSpecificData (res_urb r) i = pTransferSpecificData pUrb i)
  /\ pTransferBuffer (res_urb r) = pTransferBuffer pUrb.
Proof.
  cbv zeta. unfold Isochronous_Completion_Callback.
  destruct (iso_packet_loop _ spawn pUrb 0 g) as [[g1 | g1] tr].
  2:{ cbn [res_status]. intros H. discriminate H. }
  assert (E : res_urb (if aborted g1 =? 0
                       then mkResult g1 (refill_descriptors pUrb) (tr ++ [EvIsoResubmit])
                                     USBHST_SUCCESS
                       else mkResult g1 (refill_descriptors pUrb) tr USBHST_SUCCESS)
              = refill_descriptors pUrb) by (destruct (aborted g1 =? 0); reflexivity).
  intros _. rewrite E. unfold refill_descriptors, fresh_descriptors.
  cbn [pTransferSpecificData pTransferBuffer].
  split; [| split; [| reflexivity]].
  - intros i Hi. unfold NUMBER_OF_ISOCHRONOUS_PACKETS in *.
    destruct (Z.leb_spec 0 i); [| lia]. destruct (Z.ltb_spec i 12); [| lia].
    cbn [andb uLength uOffset nStatus].
    rewrite (uint32_small i) by lia.
    rewrite uint32_small by (unfold ISOCHRONOUS_BUFFER_SIZE; lia).
    repeat split; lia.
  - intros i Hi. unfold NUMBER_OF_ISOCHRONOUS_PACKETS in *.
    destruct (Z.leb_spec 0 i); destruct (Z.ltb_spec i 12); cbn [andb]; try reflexivity; lia.
Qed.

(** The theorem at a completion in which the stack reported lengths 944,
    944, 12, ..., 12. *)
Lemma descriptors_reset_after_completion_witness :
  let r := Isochronous_Completion_Callback spawn_always urb_new_frame1 initial_globals in
  (forall i : Z, 0 <= i < NUMBER_OF_ISOCHRONOUS_PACKETS ->
     uLength (pTransferSpecificData (res_urb r) i) = uLength (fresh_descriptors i)
     /\ uOffset (pTransferSpecificData (res_urb r) i) = uOffset (fresh_descriptors i)
     /\ uOffset (pTransferSpecificData (res_urb r) i) = i * ISOCHRONOUS_BUFFER_SIZE
     /\ nStatus (pTransferSpecificData (res_urb r) i)
        = nStatus (pTransferSpecificData urb_new_frame1 i))
  /\ (forall i : Z, ~ 0 <= i < NUMBER_OF_ISOCHRONOUS_PACKETS ->
        pTransferSpecificData (res_urb r) i = pTransferSpecificData urb_new_frame1 i)
  /\ pTransferBuffer (res_urb r) = pTransferBuffer urb_new_frame1.
Proof.
  apply (descriptors_reset_after_completion spawn_always urb_new_frame1 initial_globals).
  reflexivity.
Defined.

(** ** Packet status, over whole completions *)

Lemma iso_packet_loop_ignores_status (n : nat) (spawn : Z -> bool) (pUrb : USBHST_URB)
    (status : Z -> Z) :
  forall (i : Z) (g : globals),
    iso_packet_loop n spawn (with_status pUrb status) i g = iso_packet_loop n spawn pUrb i g.
Proof.
  induction n as [| n IH]; intros i g; [reflexivity |].
  cbn [iso_packet_loop]. rewrite iso_packet_ignores_status.
  destruct (iso_packet (spawn i) pUrb i g) as [[g1 | g1] tr]; [| reflexivity].
  rewrite IH. reflexivity.
Qed.

(** X18.  The statuses of the packets have no effect on a completion:
    with any other statuses in the descriptors, the callback leaves the
    same globals, logs the same events and returns the same value. *)
Theorem callback_ignores_packet_status
    (spawn : Z -> bool) (pUrb : USBHST_URB) (status : Z -> Z) (g : globals) :
  let r1 := Isochronous_Completion_Callback spawn (with_status pUrb status) g in
  let r2 := Isochronous_Completion_Callback spawn pUrb g in
  res_globals r1 = res_globals r2
  /\ res_trace r1 = res_trace r2
  /\ res_status r1 = res_status r2.
Proof.
  cbv zeta. unfold Isochronous_Completion_Callback.
  rewrite iso_packet_loop_ignores_status.
  destruct (iso_packet_loop _ spawn pUrb 0 g) as [[g1 | g1] tr].
  - destruct (aborted g1 =? 0); repeat split.
  - repeat split.
Qed.

(** ** Ranges of the globals *)

Lemma iso_packet_in_range (spawn_ok : bool) (pUrb : USBHST_URB) (i : Z) (g : globals) :
  globals_in_range g ->
  globals_in_range (flow_globals (fst (iso_packet spawn_ok pUrb i g))).
Proof.
  intros H. assert (H' := H). destruct H' as (Hd & Ho & Hc & Hm & He & Ha & Hf).
  destruct (iso_packet_cases pUrb i g) as [Hs | [[Hl Hfid] | [Hl Hfid]]].
  - rewrite (iso_packet_skip spawn_ok pUrb i g Hs). exact H.
  - rewrite (iso_packet_continue spawn_ok pUrb i g Hl Hfid).
    unfold globals_in_range. cbn [fst flow_globals data offset frameCount mem_h
                                    end_of_image aborted first].
    split; [exact Hd | split; [apply uint32_range | split; [exact Hc |]]].
    split; [exact Hm | split; [exact He | split; [exact Ha |]]].
    destruct (first g =? 1); [left; reflexivity | exact Hf].
  - assert (Hab : (if uint16 (frameCount g - 1) =? 0 then 1 else aborted g) = 0
                  \/ (if uint16 (frameCount g - 1) =? 0 then 1 else aborted g) = 1)
      by (destruct (uint16 (frameCount g - 1) =? 0); [right; reflexivity | exact Ha]).
    destruct spawn_ok.
    + rewrite (iso_packet_boundary pUrb i g Hl Hfid).
      unfold globals_in_range. cbn [fst flow_globals data offset frameCount mem_h
                                      end_of_image aborted first].
      split; [exact Hd | split; [apply uint32_range | split; [apply uint16_range |]]].
      split; [apply packet_fid_bit | split; [right; reflexivity |]].
      split; [exact Hab | right; reflexivity].
    + rewrite (iso_packet_boundary_failed pUrb i g Hl Hfid).
      unfold globals_in_range. cbn [fst flow_globals data offset frameCount mem_h
                                      end_of_image aborted first].
      split; [exact Hd | split; [lia | split; [apply uint16_range |]]].
      split; [apply packet_fid_bit | split; [right; reflexivity |]].
      split; [exact Hab | exact Hf].
Qed.

Lemma iso_packet_loop_in_range (n : nat) (spawn : Z -> bool) (pUrb : USBHST_URB) :
  forall (i : Z) (g : globals),
    globals_in_range g ->
    globals_in_range (flow_globals (fst (iso_packet_loop n spawn pUrb i g))).
Proof.
  induction n as [| n IH]; intros i g H; [exact H |].
  cbn [iso_packet_loop].
  assert (P := iso_packet_in_range (spawn i) pUrb i g H).
  destruct (iso_packet (spawn i) pUrb i g) as [[g1 | g1] tr]; cbn [fst flow_globals] in P.
  - specialize (IH (i + 1) g1 P).
    destruct (iso_packet_loop n spawn pUrb (i + 1) g1) as [r tr']. exact IH.
  - exact P.
Qed.

(** X19.  In every state the callback can be entered or left in, each
    global is within the range of its C type and the flags are 0 or 1:
    data has 26 bytes, offset is below 2^32, frameCount below 2^16, and
    mem_h, end_of_image, aborted and first are 0 or 1. *)
Theorem reachable_globals_in_range (g : globals) :
  reachable g -> globals_in_range g.
Proof.
  induction 1 as [| spawn pUrb g _ IH].
  - unfold globals_in_range. vm_compute.
    repeat split; try discriminate; try reflexivity; auto.
  - destruct (callback_boundaries spawn pUrb g) as [_ E]. rewrite E.
    apply iso_packet_loop_in_range. exact IH.
Qed.

Lemma reachable_globals_in_range_witness :
  globals_in_range (res_globals (Isochronous_Completion_Callback spawn_always urb_toggling
                                   initial_globals)).
Proof.
  apply (reachable_globals_in_range _ (reach_completion spawn_always urb_toggling
                                         initial_globals reach_init)).
Defined.

(** ** fill_global *)

(** X20.  fill_global starts a session over from any state: it writes
    the probe request into the first seven bytes of data (frame interval
    0x0A2C2A = 666666 units of 100 ns, that is 15 frames per second, in
    bytes 4 to 6) and leaves the other nineteen as they are, sets the
    quota to 500, clears the abort flag and arms the first semTake; it
    does not touch offset, mem_h, end_of_image or image_buffer, which
    keep what an earlier session left. *)
Theorem fill_global_resets_session (g : globals) :
  length (data g) = 26%nat ->
  data (fill_global g) = [1; 0; 0; 2; 0x2A; 0x2C; 0x0A] ++ skipn 7 (data g)
  /\ 0x2A + 256 * 0x2C + 65536 * 0x0A = 666666
  /\ frameCount (fill_global g) = 500
  /\ aborted (fill_global g) = 0
  /\ first (fill_global g) = 1
  /\ offset (fill_global g) = offset g
  /\ mem_h (fill_global g) = mem_h g
  /\ end_of_image (fill_global g) = end_of_image g
  /\ image_buffer (fill_global g) = image_buffer g
  /\ fill_global (fill_global g) = fill_global g.
Proof.
  intros H. destruct g as [d ib o fc m e a f]. cbn [data] in H.
  do 7 (destruct d as [| ? d]; [discriminate H |]).
  repeat split.
Qed.

(** The theorem at the state a spent session leaves. *)
Lemma fill_global_resets_session_witness :
  data (fill_global globals_quota_spent)
  = [1; 0; 0; 2; 0x2A; 0x2C; 0x0A] ++ skipn 7 (data globals_quota_spent)
  /\ 0x2A + 256 * 0x2C + 65536 * 0x0A = 666666
  /\ frameCount (fill_global globals_quota_spent) = 500
  /\ aborted (fill_global globals_quota_spent) = 0
  /\ first (fill_global globals_quota_spent) = 1
  /\ offset (fill_global globals_quota_spent) = offset globals_quota_spent
  /\ mem_h (fill_global globals_quota_spent) = mem_h globals_quota_spent
  /\ end_of_image (fill_global globals_quota_spent) = end_of_image globals_quota_spent
  /\ image_buffer (fill_global globals_quota_spent) = image_buffer globals_quota_spent
  /\ fill_global (fill_global globals_quota_spent) = fill_global globals_quota_spent.
Proof. apply (fill_global_resets_session globals_quota_spent). reflexivity. Defined.

(** ** Attach *)

Lemma filter_iso_submit_of_streaming (tr : trace) :
  filter is_streaming tr = [] -> filter is_iso_submit tr = [].
Proof.
  induction tr as [| e tr IH]; [reflexivity |].
  cbn [filter]. destruct e; cbn [is_streaming is_iso_submit]; try exact IH; discriminate.
Qed.

(** The streaming part: the first Isochronous_Transfer either fails or
    never returns, so the loop of five passes submits at most one URB. *)
Lemma start_streaming_outcome (env : attach_env) :
  let '(tr, r) := start_streaming env in
  (length (filter is_iso_submit tr) <= 1)%nat
  /\ ((r = Blocked /\ filter is_deregister tr = []
       /\ length (filter is_iso_submit tr) = 1%nat)
      \/ ((r = Returns ERROR \/ r = Returns USBHST_FAILURE) /\ In EvDriverDeregister tr)).
Proof.
  unfold start_streaming.
  destruct (negb (int8 (setInterface_status env) =? OK)).
  { split; [cbn; lia | right; split; [left; reflexivity | right; left; reflexivity]]. }
  destruct (negb (calloc_setupInfo env)).
  { split; [cbn; lia | right; split; [left; reflexivity | right; left; reflexivity]]. }
  destruct (negb (int8 (pipePrepare_status env) =? USBHST_SUCCESS)).
  { split; [cbn; lia |
            right; split; [left; reflexivity | right; right; left; reflexivity]]. }
  change (Z.to_nat NO_OF_TRANSFERS) with 5%nat. cbn [start_transfers].
  unfold Isochronous_Transfer.
  destruct (iso_calloc_urb (iso_transfer env 0)); cbn [negb].
  2:{ split; [cbn; lia | right; split; [right; reflexivity |]].
      cbn. right. right. left. reflexivity. }
  destruct (iso_calloc_desc (iso_transfer env 0)); cbn [negb].
  2:{ split; [cbn; lia | right; split; [right; reflexivity |]].
      cbn. right. right. left. reflexivity. }
  destruct (Z.eqb_spec (iso_submit_status (iso_transfer env 0)) USBHST_SUCCESS) as [E | E].
  - cbn. split; [lia | left; repeat split].
  - destruct (Z.eqb_spec USBHST_SUCCESS (iso_submit_status (iso_transfer env 0)));
      [congruence |].
    cbn. split; [lia | right; split; [right; reflexivity |]].
    right. right. right. left. reflexivity.
Qed.

(** X21.  Add_Device_Callback never returns USBHST_SUCCESS.  Whatever
    the environment answers, it either returns -1 (ERROR or
    USBHST_FAILURE) after having deregistered the driver, or it does not
    return: after a successful submission Isochronous_Transfer waits for
    an event that Isochronous_Completion_Callback never releases.  In
    particular the loop over NO_OF_TRANSFERS submits at most one
    isochronous URB. *)
Theorem attach_never_reports_success (env : attach_env) (g : globals) :
  let '(tr, g', r) := Add_Device_Callback env g in
  r <> Returns USBHST_SUCCESS
  /\ (r = Blocked \/ ((r = Returns ERROR \/ r = Returns USBHST_FAILURE)
                      /\ In EvDriverDeregister tr))
  /\ (length (filter is_iso_submit tr) <= 1)%nat.
Proof.
  assert (K : forall (tr : trace) (r : outcome Z),
            (r = Blocked \/ ((r = Returns ERROR \/ r = Returns USBHST_FAILURE)
                             /\ In EvDriverDeregister tr)) ->
            r <> Returns USBHST_SUCCESS).
  { intros tr r [-> | [[-> | ->] _]]; discriminate. }
  assert (S : forall g3 : globals,
            let '(tr, g', r) :=
              (let '(tr, r) := start_streaming env in (tr, g3, r)) in
            (r = Blocked \/ ((r = Returns ERROR \/ r = Returns USBHST_FAILURE)
                             /\ In EvDriverDeregister tr))
            /\ (length (filter is_iso_submit tr) <= 1)%nat).
  { intros g3. assert (P := start_streaming_outcome env).
    destruct (start_streaming env) as [tr r]. destruct P as [P1 [(-> & _ & _) | P2]].
    - split; [left; reflexivity | exact P1].
    - split; [right; exact P2 | exact P1]. }
  unfold Add_Device_Callback.
  destruct (negb (int8 (getConfiguration_status env) =? OK)).
  { split; [discriminate | split; [| cbn; lia]].
    right. split; [left; reflexivity | right; left; reflexivity]. }
  destruct (negb (int8 (setConfiguration_status env) =? OK)).
  { split; [discriminate | split; [| cbn; lia]].
    right. split; [left; reflexivity | right; right; left; reflexivity]. }
  assert (F : forall (e : control_env) (rt rq v : Z) (g0 : globals)
                     (k : globals -> trace * globals * outcome Z),
            control_succeeds e = false ->
            let '(tr, g', r) := negotiation_step e rt rq v g0 k in
            (r = Blocked \/ ((r = Returns ERROR \/ r = Returns USBHST_FAILURE)
                             /\ In EvDriverDeregister tr))
            /\ filter is_iso_submit tr = []).
  { intros e rt rq v g0 k He.
    destruct (negotiation_step_fails e rt rq v g0 k He) as (tr & g' & E & Hd & Hs & _).
    rewrite E. split; [| apply filter_iso_submit_of_streaming; exact Hs].
    destruct (null_completion e); [left; reflexivity | right; split; [right; reflexivity | exact Hd]]. }
  assert (W : forall (tr0 tr : trace) (r : outcome Z),
            filter is_iso_submit tr0 = [] ->
            (r = Blocked \/ ((r = Returns ERROR \/ r = Returns USBHST_FAILURE)
                             /\ In EvDriverDeregister tr))
            /\ (length (filter is_iso_submit tr) <= 1)%nat ->
            r <> Returns USBHST_SUCCESS
            /\ (r = Blocked \/ ((r = Returns ERROR \/ r = Returns USBHST_FAILURE)
                                /\ In EvDriverDeregister (tr0 ++ tr)))
            /\ (length (filter is_iso_submit (tr0 ++ tr)) <= 1)%nat).
  { intros tr0 tr r H0 [H1 H2]. split; [exact (K tr r H1) | split].
    - destruct H1 as [H1 | [H1 H3]]; [left; exact H1 | right; split; [exact H1 |]].
      apply in_or_app. right. exact H3.
    - rewrite filter_app, H0. exact H2. }
  destruct (control_succeeds (control1 env)) eqn:S1.
  2:{ assert (P := F (control1 env) USB_DIRECTION_OUT USB_SET_CURRENT UVC_VS_PROBE_CONTROL g
                     (fun g1 =>
                        negotiation_step (control2 env) USB_DIRECTION_IN USB_GET_CURRENT
                          UVC_VS_PROBE_CONTROL g1
                          (fun g2 =>
                             negotiation_step (control3 env) USB_DIRECTION_OUT USB_SET_CURRENT
                               UVC_VS_COMMIT_CONTROL g2
                               (fun g3 => let '(tr, r) := start_streaming env in (tr, g3, r))))
                     S1).
      destruct (negotiation_step (control1 env) _ _ _ g _) as [[tr g'] r].
      destruct P as [P1 P2]. apply W; [reflexivity | split; [exact P1 | rewrite P2; cbn; lia]]. }
  rewrite (negotiation_step_succeeds _ _ _ _ _ _ S1).
  change (device_to_host USB_DIRECTION_OUT) with false. cbv iota.
  destruct (control_succeeds (control2 env)) eqn:S2.
  2:{ assert (P := F (control2 env) USB_DIRECTION_IN USB_GET_CURRENT UVC_VS_PROBE_CONTROL g
                     (fun g2 =>
                        negotiation_step (control3 env) USB_DIRECTION_OUT USB_SET_CURRENT
                          UVC_VS_COMMIT_CONTROL g2
                          (fun g3 => let '(tr, r) := start_streaming env in (tr, g3, r)))
                     S2).
      destruct (negotiation_step (control2 env) _ _ _ g _) as [[tr g'] r].
      destruct P as [P1 P2].
      apply (W [EvGetConfiguration; EvSetConfiguration]); [reflexivity |].
      apply (W [EvControlSubmit USB_DIRECTION_OUT USB_SET_CURRENT UVC_VS_PROBE_CONTROL
                  USB_SETUP_PACKET_INDEX sizeof_data (data g); EvReleaseEvent]);
        [reflexivity | split; [exact P1 | rewrite P2; cbn; lia]]. }
  rewrite (negotiation_step_succeeds _ _ _ _ _ _ S2).
  change (device_to_host USB_DIRECTION_IN) with true. cbv iota.
  destruct (control_succeeds (control3 env)) eqn:S3.
  2:{ assert (P := F (control3 env) USB_DIRECTION_OUT USB_SET_CURRENT UVC_VS_COMMIT_CONTROL
                     (set_data g (receive (data g) (device_reply (control2 env))))
                     (fun g3 => let '(tr, r) := start_streaming env in (tr, g3, r))
                     S3).
      destruct (negotiation_step (control3 env) _ _ _ _ _) as [[tr g'] r].
      destruct P as [P1 P2].
      apply (W [EvGetConfiguration; EvSetConfiguration]); [reflexivity |].
      apply (W [EvControlSubmit USB_DIRECTION_OUT USB_SET_CURRENT UVC_VS_PROBE_CONTROL
                  USB_SETUP_PACKET_INDEX sizeof_data (data g); EvReleaseEvent]);
        [reflexivity |].
      apply (W [EvControlSubmit USB_DIRECTION_IN USB_GET_CURRENT UVC_VS_PROBE_CONTROL
                  USB_SETUP_PACKET_INDEX sizeof_data (data g); EvReleaseEvent]);
        [reflexivity | split; [exact P1 | rewrite P2; cbn; lia]]. }
  rewrite (negotiation_step_succeeds _ _ _ _ _ _ S3).
  change (device_to_host USB_DIRECTION_OUT) with false. cbv iota.
  assert (P := S (set_data g (receive (data g) (device_reply (control2 env))))).
  destruct (start_streaming env) as [tr r].
  apply (W [EvGetConfiguration; EvSetConfiguration]); [reflexivity |].
  apply (W [EvControlSubmit USB_DIRECTION_OUT USB_SET_CURRENT UVC_VS_PROBE_CONTROL
              USB_SETUP_PACKET_INDEX sizeof_data (data g); EvReleaseEvent]);
    [reflexivity |].
  apply (W [EvControlSubmit USB_DIRECTION_IN USB_GET_CURRENT UVC_VS_PROBE_CONTROL
              USB_SETUP_PACKET_INDEX sizeof_data (data g); EvReleaseEvent]);
    [reflexivity |].
  apply (W [EvControlSubmit USB_DIRECTION_OUT USB_SET_CURRENT UVC_VS_COMMIT_CONTROL
              USB_SETUP_PACKET_INDEX sizeof_data
              (data (set_data g (receive (data g) (device_reply (control2 env)))));
            EvReleaseEvent]);
    [reflexivity | exact P].
Qed.

(** ** The shared negotiation buffer *)

Lemma length_receive (buf bytes : list Z) : length (receive buf bytes) = length buf.
Proof.
  unfold receive. rewrite length_firstn, length_app, length_skipn. lia.
Qed.

(** X22.  A short answer to GET_CUR/PROBE leaves stale bytes in the
    COMMIT.  data is not cleared between the transfers (the memset is
    commented out): when the negotiation succeeds and the device returns
    n <= 26 bytes, the payload committed is those n bytes followed by
    bytes n .. 25 of what the host itself had sent with SET_CUR/PROBE. *)
Theorem commit_after_short_probe_response (env : attach_env) (g : globals) :
  negotiation_succeeds env = true ->
  (length (device_reply (control2 env)) <= length (data g))%nat ->
  let dev := device_reply (control2 env) in
  let '(tr, g', r) := Add_Device_Callback env g in
  nth 2 (filter is_control tr) EvClose
  = EvControlSubmit USB_DIRECTION_OUT USB_SET_CURRENT UVC_VS_COMMIT_CONTROL
                    USB_SETUP_PACKET_INDEX 26 (dev ++ skipn (length dev) (data g))
  /\ nth 0 (filter is_control tr) EvClose
     = EvControlSubmit USB_DIRECTION_OUT USB_SET_CURRENT UVC_VS_PROBE_CONTROL
                       USB_SETUP_PACKET_INDEX 26 (data g)
  /\ data g' = dev ++ skipn (length dev) (data g).
Proof.
  intros Hs Hl dev. subst dev.
  assert (P := successful_negotiation_trace env g Hs). cbv zeta in P.
  rewrite (receive_short _ _ Hl) in P.
  destruct (Add_Device_Callback env g) as [[tr g'] r].
  destruct P as (E & D & _). rewrite E. repeat split. exact D.
Qed.

(** The theorem at a device that answers with four bytes only. *)
Lemma commit_after_short_probe_response_witness :
  let env := attach_with (control_ok []) (control_ok [9; 8; 7; 6]) (control_ok []) in
  let dev := device_reply (control2 env) in
  let '(tr, g', r) := Add_Device_Callback env initial_globals in
  nth 2 (filter is_control tr) EvClose
  = EvControlSubmit USB_DIRECTION_OUT USB_SET_CURRENT UVC_VS_COMMIT_CONTROL
                    USB_SETUP_PACKET_INDEX 26
                    (dev ++ skipn (length dev) (data initial_globals))
  /\ nth 0 (filter is_control tr) EvClose
     = EvControlSubmit USB_DIRECTION_OUT USB_SET_CURRENT UVC_VS_PROBE_CONTROL
                       USB_SETUP_PACKET_INDEX 26 (data initial_globals)
  /\ data g' = dev ++ skipn (length dev) (data initial_globals).
Proof.
  apply (commit_after_short_probe_response
           (attach_with (control_ok []) (control_ok [9; 8; 7; 6]) (control_ok []))
           initial_globals).
  - reflexivity.
  - cbn. lia.
Defined.

(** What one control transfer does to the globals. *)
Lemma Control_Transfer_globals (e : control_env) (rt rq v idx : Z) (g : globals) :
  let g' := snd (fst (Control_Transfer e rt rq v idx g)) in
  g' = g
  \/ (device_to_host rt = true
      /\ g' = set_data g (receive (data g) (device_reply e))).
Proof.
  cbv zeta. unfold Control_Transfer, device_reply.
  destruct (calloc_urb e); cbn [negb]; [| left; reflexivity].
  destruct (calloc_setup e); cbn [negb]; [| left; reflexivity].
  destruct (submit_status e =? USBHST_SUCCESS); [| left; reflexivity].
  destruct (completes e) as [s bytes |]; [| left; reflexivity].
  destruct (device_to_host rt);
    cbn [Control_Completion_Callback event_released existsb orb fst snd];
    [right; split; reflexivity | left; reflexivity].
Qed.

Lemma negotiation_step_globals (e : control_env) (rt rq v : Z) (g : globals)
    (k : globals -> trace * globals * outcome Z) (P : globals -> Prop) :
  (forall g1 : globals,
     g1 = g \/ (device_to_host rt = true
                /\ g1 = set_data g (receive (data g) (device_reply e))) ->
     P g1) ->
  (forall g1 : globals,
     g1 = g \/ (device_to_host rt = true
                /\ g1 = set_data g (receive (data g) (device_reply e))) ->
     P (snd (fst (k g1)))) ->
  P (snd (fst (negotiation_step e rt rq v g k))).
Proof.
  intros H1 H2. unfold negotiation_step.
  assert (G := Control_Transfer_globals e rt rq v USB_SETUP_PACKET_INDEX g). cbv zeta in G.
  destruct (Control_Transfer e rt rq v USB_SETUP_PACKET_INDEX g) as [[tr g1] [s |]];
    cbn [fst snd] in G.
  - destruct (negb (USBHST_SUCCESS =? s)); cbn [fst snd]; [exact (H1 g1 G) |].
    specialize (H2 g1 G). destruct (k g1) as [[tr' g''] r]. exact H2.
  - exact (H1 g1 G).
Qed.

(** X23.  The attach touches the globals only through the GET_CUR/PROBE
    transfer: whatever happens, after Add_Device_Callback data is either
    unchanged or holds the device's answer stored over its first bytes,
    it still has its 26 bytes, and every other global is as before. *)
Theorem attach_changes_only_probe_buffer (env : attach_env) (g : globals) :
  length (data g) = 26%nat ->
  let g' := snd (fst (Add_Device_Callback env g)) in
  (g' = g \/ g' = set_data g (receive (data g) (device_reply (control2 env))))
  /\ length (data g') = 26%nat
  /\ image_buffer g' = image_buffer g /\ offset g' = offset g
  /\ frameCount g' = frameCount g /\ mem_h g' = mem_h g
  /\ aborted g' = aborted g /\ first g' = first g.
Proof.
  intros Hl. cbv zeta.
  assert (M : snd (fst (Add_Device_Callback env g)) = g
              \/ snd (fst (Add_Device_Callback env g))
                 = set_data g (receive (data g) (device_reply (control2 env)))).
  { unfold Add_Device_Callback.
    destruct (negb (int8 (getConfiguration_status env) =? OK)); [left; reflexivity |].
    destruct (negb (int8 (setConfiguration_status env) =? OK)); [left; reflexivity |].
    match goal with
    | |- context [negotiation_step (control1 env) ?rt ?rq ?v g ?k] =>
        assert (N := negotiation_step_globals (control1 env) rt rq v g k
                       (fun x => x = g
                                 \/ x = set_data g (receive (data g)
                                                      (device_reply (control2 env)))));
        destruct (negotiation_step (control1 env) rt rq v g k) as [[tr g'] r]
    end.
    cbn [fst snd] in *. apply N; clear N.
    - intros g1 [-> | [D _]]; [left; reflexivity | discriminate D].
    - intros g1 [-> | [D _]]; [| discriminate D].
      apply negotiation_step_globals.
      + intros g2 [-> | [_ ->]]; [left | right]; reflexivity.
      + intros g2 Hg2. apply negotiation_step_globals.
        * intros g3 [-> | [D _]]; [| discriminate D].
          destruct Hg2 as [-> | [_ ->]]; [left | right]; reflexivity.
        * intros g3 [-> | [D _]]; [| discriminate D].
          destruct (start_streaming env) as [trs rs]. cbn [fst snd].
          destruct Hg2 as [-> | [_ ->]]; [left | right]; reflexivity. }
  split; [exact M |].
  destruct M as [-> | ->]; cbn [data set_data image_buffer offset frameCount mem_h aborted first].
  - repeat split. exact Hl.
  - repeat split. rewrite length_receive. exact Hl.
Qed.

(** The theorem at an attach whose GET_CUR/PROBE is completed with a
    failure status after four bytes arrived. *)
Lemma attach_changes_only_probe_buffer_witness :
  let env := attach_with (control_ok [])
               (mkControlEnv true true USBHST_SUCCESS (CompleteUrb USBHST_FAILURE [9; 8; 7; 6]))
               (control_ok []) in
  let g' := snd (fst (Add_Device_Callback env initial_globals)) in
  (g' = initial_globals
   \/ g' = set_data initial_globals
             (receive (data initial_globals) (device_reply (control2 env))))
  /\ length (data g') = 26%nat
  /\ image_buffer g' = image_buffer initial_globals /\ offset g' = offset initial_globals
  /\ frameCount g' = frameCount initial_globals /\ mem_h g' = mem_h initial_globals
  /\ aborted g' = aborted initial_globals /\ first g' = first initial_globals.
Proof.
  apply (attach_changes_only_probe_buffer
           (attach_with (control_ok [])
              (mkControlEnv true true USBHST_SUCCESS (CompleteUrb USBHST_FAILURE [9; 8; 7; 6]))
              (control_ok []))
           initial_globals).
  reflexivity.
Defined.
